(** * Bot-GPT: the message-generation pipeline

    A shallow embedding of the service layer of the conversational backend
    ([app/services/llm_service.py], [app/services/rag_service.py],
    [app/services/conversation_service.py]) together with the properties
    of its history truncation, keyword retrieval, context assembly and
    reply generation.

    Conventions.
    - A Python [str] is a [string]; its characters stand for the code
      points 0..255, and the string primitives below follow what Python
      does on that range.
    - A Python [int] is a [Z].
    - A [Dict[str, str]] (a chat message, a stored chunk) is a
      [gmap string string]; a Python [set] of words is a [gset string].
    - The relational store is a record of tables, each a list of rows in
      insertion order.
    - An operation that can raise returns a sum: [inl] holds the
      exception, [inr] the value returned. *)

From Stdlib Require Import ZArith Ascii String List Lia.
From stdpp Require Import base tactics option list sorting gmap strings pretty.

Local Open Scope string_scope.
Local Open Scope Z_scope.

(** ** Python string primitives *)

Module PyStr.

(** [len(s)] *)
Definition len (s : string) : Z := Z.of_nat (String.length s).

(** [c.isspace()] on code points 0..255: the characters that
    [str.split()] and [str.strip()] treat as white space. *)
Definition is_space (c : ascii) : bool :=
  let n := N_of_ascii c in
  (((9 <=? n) && (n <=? 13)) || ((28 <=? n) && (n <=? 32))
   || (n =? 133) || (n =? 160))%N.

(** [c.lower()] on code points 0..255: A-Z, and the Latin-1 capitals
    U+00C0..U+00DE except the multiplication sign U+00D7. *)
Definition lower_char (c : ascii) : ascii :=
  let n := N_of_ascii c in
  if (((65 <=? n) && (n <=? 90))
      || ((192 <=? n) && (n <=? 222) && negb (n =? 215)))%N
  then ascii_of_N (n + 32) else c.

(** [s.lower()] *)
Fixpoint lower (s : string) : string :=
  match s with
  | EmptyString => EmptyString
  | String c s' => String (lower_char c) (lower s')
  end.

(** [s.split()]: maximal runs of non-space characters, in order.
    [cur] is the run being read, reversed. *)
Fixpoint split_go (cur : option string) (s : string) : list string :=
  match s with
  | EmptyString => option_list (String.rev <$> cur)
  | String c s' =>
      if is_space c
      then option_list (String.rev <$> cur) ++ split_go None s'
      else split_go (Some (String c (default EmptyString cur))) s'
  end.
Definition split (s : string) : list string := split_go None s.

(** [s.split(sep)] for a one-character separator: every occurrence
    cuts, empty pieces are kept, so there is always at least one. *)
Fixpoint split_on_go (sep : ascii) (cur : string) (s : string) : list string :=
  match s with
  | EmptyString => [String.rev cur]
  | String c s' =>
      if Ascii.eqb c sep
      then String.rev cur :: split_on_go sep EmptyString s'
      else split_on_go sep (String c cur) s'
  end.
Definition split_on (sep : ascii) (s : string) : list string :=
  split_on_go sep EmptyString s.

(** [s.lstrip()], [s.strip()] *)
Fixpoint lstrip (s : string) : string :=
  match s with
  | EmptyString => EmptyString
  | String c s' => if is_space c then lstrip s' else s
  end.
Definition strip (s : string) : string :=
  String.rev (lstrip (String.rev (lstrip s))).

(** [w in s]: [w] occurs in [s] as a contiguous substring. *)
Fixpoint contains (w s : string) : bool :=
  String.prefix w s ||
  match s with
  | EmptyString => false
  | String _ s' => contains w s'
  end.

(** [str(i)] for an integer. *)
Definition of_int (i : Z) : string := pretty i.

(** The line feed character of ["\n"]. *)
Definition nl : string := String (ascii_of_N 10) EmptyString.

(** [s[:k]] for a non-negative [k]. *)
Fixpoint take (k : nat) (s : string) : string :=
  match k, s with
  | S k', String c s' => String c (take k' s')
  | _, _ => EmptyString
  end.

(** ["".join(l)] *)
Definition concat (l : list string) : string := foldr String.append "" l.

(** Truth value of a string: non-empty. *)
Definition truthy (s : string) : bool :=
  match s with EmptyString => false | _ => true end.

End PyStr.

(** ** Python list primitives *)

Module PyList.
Section Ops.
Context {A : Type}.

(** [l.insert(idx, x)]: a negative index counts from the end, and
    an index outside the list is clamped to its nearest end. *)
Definition insert (idx : Z) (x : A) (l : list A) : list A :=
  let n := Z.of_nat (length l) in
  let i := if idx <? 0 then idx + n else idx in
  let i := if i <? 0 then 0 else if n <? i then n else i in
  take (Z.to_nat i) l ++ x :: drop (Z.to_nat i) l.

(** [l[:k]]: the first [k] elements, or all but the last [-k] for a
    negative [k]. *)
Definition slice_to (k : Z) (l : list A) : list A :=
  let n := Z.of_nat (length l) in
  let i := if k <? 0 then Z.max 0 (k + n) else k in
  take (Z.to_nat i) l.

Variable key : A → Z.

(** [l.sort(key=key, reverse=True)]: descending by key, and stable:
    elements with equal keys keep their relative order.  An element
    is placed in front of the first element whose key is not
    greater than its own. *)
Fixpoint place (x : A) (l : list A) : list A :=
  match l with
  | [] => [x]
  | y :: l' => if key y <=? key x then x :: y :: l' else y :: place x l'
  end.

Fixpoint sort_desc (l : list A) : list A :=
  match l with
  | [] => []
  | x :: l' => place x (sort_desc l')
  end.
End Ops.

(** [sum(l)] *)
Definition sum (l : list Z) : Z := foldr Z.add 0 l.

(** [range(hi, lo - 1, -1)] for list positions: [hi, hi-1, ..., lo]
    with [hi = n - 1]. *)
Definition range_down (n lo : nat) : list nat := rev (seq lo (n - lo)).
End PyList.

(** ** [llm_service.py] *)

Module LLMService.

(** A chat message [{"role": ..., "content": ...}]. *)
Abbreviation message := (gmap string string).

Definition mk_message (role content : string) : message :=
  <["role" := role]> (<["content" := content]> ∅).

(** What the provider's chat-completion call does with a model name,
    the messages and the response-length cap (the temperature is the
    constant 0.7): it raises (the text of the exception) or returns the
    generated text and the reported total of tokens. *)
Definition provider : Type :=
  string → list message → Z → string + (string * Z).

(** The fields set by [LLMService.__init__]. *)
Record t : Type := {
  client : provider;
  default_model : string;
  max_tokens : Z;
  max_context_tokens : Z
}.

(** [LLMService()] *)
Definition init (c : provider) : t :=
  {| client := c;
     default_model := "llama-3.1-8b-instant";
     max_tokens := 2048;
     max_context_tokens := 32768 |}.

(** The dict returned by [generate_response]. *)
Record response : Type := {
  content : string;
  tokens_used : Z;
  model_used : option string
}.

(** The [chat_messages] of [generate_response]: the system prompt, if
    there is one, in front of the messages. *)
Definition chat_messages (messages : list message)
    (system_prompt : option string) : list message :=
  match system_prompt with
  | Some p => if PyStr.truthy p then mk_message "system" p :: messages
              else messages
  | None => messages
  end.

(** [generate_response]: [inl] is the raised exception's text. *)
Definition generate_response (self : t) (messages : list message)
    (model : option string) (system_prompt : option string)
    (max_tokens_arg : option Z) : string + response :=
  let model :=
    match model with
    | Some m => if PyStr.truthy m then m else default_model self
    | None => default_model self
    end in
  let max_tokens :=
    match max_tokens_arg with
    | Some k => if k =? 0 then max_tokens self else k
    | None => max_tokens self
    end in
  match client self model (chat_messages messages system_prompt) max_tokens with
  | inr (text, total) =>
      inr {| content := text; tokens_used := total; model_used := Some model |}
  | inl e => inl ("LLM API error: " +:+ e)
  end.

(** [estimate_tokens] *)
Definition estimate_tokens (text : string) : Z := PyStr.len text / 4.

Definition get_content (msg : message) : string :=
  default "" (msg !! "content").

Definition is_system (msg : message) : bool :=
  bool_decide (msg !! "role" = Some "system").

(** The loop of [truncate_messages] over the positions
    [len(messages) - 1, ..., start_idx], with its [break]. *)
Fixpoint scan (messages : list message) (message_tokens : list Z)
    (max_tokens : Z) (idxs : list nat) (result : list message)
    (total_tokens : Z) : list message :=
  match idxs with
  | [] => result
  | i :: idxs' =>
      match messages !! i, message_tokens !! i with
      | Some m, Some tk =>
          if total_tokens + tk <=? max_tokens
          then scan messages message_tokens max_tokens idxs'
                 (PyList.insert
                    (Z.of_nat (length result)
                     - (Z.of_nat (length messages) - Z.of_nat i)) m result)
                 (total_tokens + tk)
          else result
      | _, _ => result (* not reached: the positions are in range *)
      end
  end.

(** [truncate_messages] *)
Definition truncate_messages (messages : list message) (max_tokens : Z)
    (keep_system : bool) : list message :=
  match messages with
  | [] => messages
  | first :: _ =>
      let message_tokens := map (λ msg, estimate_tokens (get_content msg)) messages in
      let total_tokens := PyList.sum message_tokens in
      if total_tokens <=? max_tokens then messages
      else
        let '(result, total_tokens, start_idx) :=
          if is_system first && keep_system
          then ([first], default 0 (message_tokens !! 0%nat), 1%nat)
          else ([], total_tokens, 0%nat) in
        scan messages message_tokens max_tokens
          (PyList.range_down (length messages) start_idx) result total_tokens
  end.

End LLMService.

(** ** [models.py]: the tables

    The columns the service layer reads or writes.  (The creation and
    update time stamps of the other tables, [file_path] and
    [doc_metadata] are never read by it.) *)

Module Conversation.
Record t : Type := {
  id : Z;
  user_id : Z;
  title : option string;
  mode : string
}.
End Conversation.

Module Message.
Record t : Type := {
  id : Z;
  conversation_id : Z;
  role : string;
  content : string;
  tokens_used : Z;
  model_used : option string;
  created_at : Z
}.
End Message.

Module Document.
(** A stored chunk [{"text": ...}]. *)
Abbreviation chunk := (gmap string string).

Record t : Type := {
  id : Z;
  filename : string;
  content : option string;
  chunks : option (list chunk)
}.
End Document.

Module ConversationDocument.
Record t : Type := {
  id : Z;
  conversation_id : Z;
  document_id : Z
}.
End ConversationDocument.

(** The exceptions of the operations: the [ValueError] the service
    raises, the [OverflowError] of the database driver, and the
    [HTTPException] an endpoint raises. *)
Module PyExn.
Inductive t : Type :=
| ValueError (message : string)
| OverflowError (message : string)
| HTTPError (status_code : Z) (detail : string).
End PyExn.

(** The session's view of the store.  Every query of the operations below
    runs after the flush of the rows it can see, so a row is entered in
    its table when it is added. *)
Module Db.
Record t : Type := {
  conversations : list Conversation.t;
  messages : list Message.t;
  documents : list Document.t;
  conversation_documents : list ConversationDocument.t
}.

Definition empty : t :=
  {| conversations := []; messages := []; documents := [];
     conversation_documents := [] |}.

(** The key an integer primary key column gives a new row. *)
Definition next_id (ids : list Z) : Z := 1 + foldr Z.max 0 ids.

(** [query(...).filter(col == v).first()] *)
Definition first {A} (p : A → bool) (rows : list A) : option A :=
  head (filter (λ r, p r = true) rows).

(** The store that [database.py] sets up by default is SQLite, which
    holds an integer in 64 bits, signed: from -2^63 to 2^63 - 1. *)
Definition in_range (v : Z) : bool :=
  (-9223372036854775808 <=? v) && (v <=? 9223372036854775807).

(** What the driver raises when it is given an integer to bind that the
    store cannot hold. *)
Definition too_large : PyExn.t :=
  PyExn.OverflowError "Python int too large to convert to SQLite INTEGER".

(** [query(...).filter(col == v).first()] for a key [v] that the caller
    of the operation passes in.  The driver binds [v] before the query
    runs, and raises when [v] is out of range.  These are the lookups
    that come first in [add_message], [get_conversation] and
    [delete_conversation], and the lookups in the loop of
    [create_conversation]; the queries that follow in the same operation
    bind the key of a row that was found or has just been entered. *)
Definition first_by {A} (key : A → Z) (v : Z) (rows : list A)
    : PyExn.t + option A :=
  if in_range v then inr (first (λ r, key r =? v) rows) else inl too_large.

Definition add_conversation (c : Conversation.t) (db : t) : t :=
  {| conversations := conversations db ++ [c]; messages := messages db;
     documents := documents db;
     conversation_documents := conversation_documents db |}.

Definition add_message (m : Message.t) (db : t) : t :=
  {| conversations := conversations db; messages := messages db ++ [m];
     documents := documents db;
     conversation_documents := conversation_documents db |}.

Definition add_link (l : ConversationDocument.t) (db : t) : t :=
  {| conversations := conversations db; messages := messages db;
     documents := documents db;
     conversation_documents := conversation_documents db ++ [l] |}.
End Db.

(** The user table. *)
Module User.
Record t : Type := {
  id : Z;
  username : string;
  email : option string
}.
End User.

(** ** [rag_service.py] *)

Module RAGService.

(** An entry of [relevant_chunks]. *)
Record scored : Type := {
  text : string;
  score : Z;
  source : string
}.

(** [set(s.lower().split())] *)
Definition words (s : string) : gset string :=
  list_to_set (PyStr.split (PyStr.lower s)).

(** [len(a.intersection(b))] *)
Definition overlap (a b : gset string) : Z := Z.of_nat (size (a ∩ b)).

Definition get_text (chunk : Document.chunk) : string :=
  default "" (chunk !! "text").

(** The branch for a document with stored chunks. *)
Definition chunk_candidates (query_words : gset string) (filename : string)
    (chunks : list Document.chunk) : list scored :=
  flat_map (λ chunk,
    let chunk_text := PyStr.lower (get_text chunk) in
    let chunk_words : gset string := list_to_set (PyStr.split chunk_text) in
    let matches := overlap query_words chunk_words in
    if 0 <? matches
    then [{| text := get_text chunk; score := matches; source := filename |}]
    else []) chunks.

(** [any(word in sent.lower() for word in query_words)] *)
Definition mentions (query_words : gset string) (sent : string) : bool :=
  existsb (λ word, PyStr.contains word (PyStr.lower sent))
          (elements query_words).

(** The branch for a document without chunks but with content. *)
Definition content_candidates (query_words : gset string) (top_k : Z)
    (filename : string) (content : string) : list scored :=
  let content_lower := PyStr.lower content in
  let matches :=
    overlap query_words (list_to_set (PyStr.split content_lower)) in
  if 0 <? matches
  then
    let sentences := PyStr.split_on "." content in
    flat_map (λ sent,
      if mentions query_words sent
      then [{| text := PyStr.strip sent; score := matches; source := filename |}]
      else []) (PyList.slice_to top_k sentences)
  else [].

(** The body of the loop over the linked documents. *)
Definition doc_candidates (query_words : gset string) (top_k : Z)
    (doc : Document.t) : list scored :=
  match Document.chunks doc with
  | Some (c :: cs) =>
      chunk_candidates query_words (Document.filename doc) (c :: cs)
  | _ =>
      match Document.content doc with
      | Some content =>
          if PyStr.truthy content
          then content_candidates query_words top_k (Document.filename doc) content
          else []
      | None => []
      end
  end.

(** From the keyword matching to the [return]: collect, sort, cut. *)
Definition rank (documents : list Document.t) (user_query : string)
    (top_k : Z) : list scored :=
  let query_lower := PyStr.lower user_query in
  let query_words : gset string := list_to_set (PyStr.split query_lower) in
  let relevant_chunks := flat_map (doc_candidates query_words top_k) documents in
  PyList.slice_to top_k (PyList.sort_desc score relevant_chunks).

(** The documents linked to a conversation, as the two queries give them. *)
Definition linked_documents (db : Db.t) (conversation_id : Z) : list Document.t :=
  let doc_links :=
    filter (λ l, ConversationDocument.conversation_id l = conversation_id)
           (Db.conversation_documents db) in
  let document_ids := map ConversationDocument.document_id doc_links in
  filter (λ d, Document.id d ∈ document_ids) (Db.documents db).

(** [retrieve_relevant_chunks] *)
Definition retrieve_relevant_chunks (db : Db.t) (conversation_id : Z)
    (user_query : string) (top_k : Z) : list string :=
  match Db.first (λ c, Conversation.id c =? conversation_id)
                 (Db.conversations db) with
  | None => []
  | Some conversation =>
      if negb (String.eqb (Conversation.mode conversation) "rag") then []
      else
        let doc_links :=
          filter (λ l, ConversationDocument.conversation_id l = conversation_id)
                 (Db.conversation_documents db) in
        match doc_links with
        | [] => []
        | _ => map text (rank (linked_documents db conversation_id)
                              user_query top_k)
        end
  end.

(** [enumerate(l, i)] *)
Fixpoint enumerate {A} (i : Z) (l : list A) : list (Z * A) :=
  match l with
  | [] => []
  | x :: l' => (i, x) :: enumerate (i + 1) l'
  end.

(** [f"[{i}] {chunk}\n\n"] *)
Definition item (p : Z * string) : string :=
  "[" +:+ PyStr.of_int p.1 +:+ "] " +:+ p.2 +:+ PyStr.nl +:+ PyStr.nl.

Definition preamble : string :=
  "Relevant context from documents:" +:+ PyStr.nl +:+ PyStr.nl.

(** [construct_rag_context] after the retrieval: the formatting of the
    chunks. *)
Definition format_context (chunks : list string) : string :=
  match chunks with
  | [] => ""
  | _ => foldl (λ context p, context +:+ item p) preamble (enumerate 1 chunks)
  end.

(** [construct_rag_context] *)
Definition construct_rag_context (db : Db.t) (conversation_id : Z)
    (user_query : string) : string :=
  format_context (retrieve_relevant_chunks db conversation_id user_query 3).


(** The loop of [chunk_document] over the sentences: the chunks so far
    and the current chunk. *)
Fixpoint chunk_loop (chunk_size : Z) (sentences : list string)
    (chunks : list Document.chunk) (current_chunk : string)
    : list Document.chunk * string :=
  match sentences with
  | [] => (chunks, current_chunk)
  | sentence :: rest =>
      let sentence := PyStr.strip sentence in
      if negb (PyStr.truthy sentence)
      then chunk_loop chunk_size rest chunks current_chunk
      else if PyStr.len current_chunk + PyStr.len sentence <? chunk_size
      then chunk_loop chunk_size rest chunks
             (current_chunk +:+ (sentence +:+ ". "))
      else chunk_loop chunk_size rest
             (if PyStr.truthy current_chunk
              then chunks ++ [ {["text" := PyStr.strip current_chunk]} ]
              else chunks)
             (sentence +:+ ". ")
  end.

(** [chunk_document] *)
Definition chunk_document (content : string) (chunk_size : Z)
    : list Document.chunk :=
  let '(chunks, current_chunk) :=
    chunk_loop chunk_size (PyStr.split_on "." content) [] "" in
  if PyStr.truthy current_chunk
  then chunks ++ [ {["text" := PyStr.strip current_chunk]} ]
  else chunks.
End RAGService.

(** ** [conversation_service.py] *)

Module ConversationService.

(** [ConversationCreate] *)
Record ConversationCreate : Type := {
  first_message : string;
  mode : string;
  document_ids : option (list Z)
}.

Record t : Type := { llm_service : LLMService.t }.

(** [ConversationService()] *)
Definition init (c : LLMService.provider) : t :=
  {| llm_service := LLMService.init c |}.

(** [query(Message).filter(...).order_by(Message.created_at).all()]:
    by ascending time stamp, rows with equal stamps in table order. *)
Definition conversation_messages (db : Db.t) (conversation_id : Z)
    : list Message.t :=
  PyList.sort_desc (λ m, - Message.created_at m)
    (filter (λ m, Message.conversation_id m = conversation_id)
            (Db.messages db)).

Definition instruction : string :=
  "You are a helpful assistant that answers questions based on "
  +:+ "the provided context. Use only the information from the context "
  +:+ "to answer. If the context doesn't contain the answer, say so."
  +:+ PyStr.nl +:+ PyStr.nl.

(** [_generate_response], the RAG step: the system prompt. *)
Definition system_prompt_for (db : Db.t) (conversation_id : Z)
    (user_message mode : string) : option string :=
  if String.eqb mode "rag"
  then
    let context := RAGService.construct_rag_context db conversation_id user_message in
    if PyStr.truthy context then Some (instruction +:+ context) else None
  else None.

(** [_generate_response], up to the truncation: the list handed to
    [truncate_messages]. *)
Definition untruncated_history (db : Db.t) (conversation_id : Z)
    (user_message : string) : list LLMService.message :=
  let messages := conversation_messages db conversation_id in
  let message_history :=
    map (λ msg, LLMService.mk_message (Message.role msg) (Message.content msg))
        messages in
  message_history ++ [LLMService.mk_message "user" user_message].

Definition max_context (self : t) : Z :=
  LLMService.max_context_tokens (llm_service self)
  - LLMService.max_tokens (llm_service self).

(** The [messages] argument of the call of [generate_response]. *)
Definition message_history (self : t) (db : Db.t) (conversation_id : Z)
    (user_message : string) : list LLMService.message :=
  LLMService.truncate_messages
    (untruncated_history db conversation_id user_message)
    (max_context self) true.

(** The response dict of the [except] branch. *)
Definition fallback (e : string) : LLMService.response :=
  {| LLMService.content := "I apologize, but I encountered an error: " +:+ e;
     LLMService.tokens_used := 0;
     LLMService.model_used := None |}.

(** The assistant row built from a response dict.  [now] is the
    store's clock. *)
Definition assistant_row (db : Db.t) (now : Z) (conversation_id : Z)
    (response : LLMService.response) : Message.t :=
  {| Message.id := Db.next_id (map Message.id (Db.messages db));
     Message.conversation_id := conversation_id;
     Message.role := "assistant";
     Message.content := LLMService.content response;
     Message.tokens_used := LLMService.tokens_used response;
     Message.model_used := LLMService.model_used response;
     Message.created_at := now |}.

(** [_generate_response]: the new state of the store and the
    assistant message. *)
Definition _generate_response (self : t) (db : Db.t) (now : Z)
    (conversation_id : Z) (user_message mode : string)
    : Db.t * Message.t :=
  let system_prompt := system_prompt_for db conversation_id user_message mode in
  let message_history := message_history self db conversation_id user_message in
  let response :=
    match LLMService.generate_response (llm_service self) message_history
            None system_prompt None with
    | inr r => r
    | inl e => fallback e
    end in
  let assistant_message := assistant_row db now conversation_id response in
  (Db.add_message assistant_message db, assistant_message).

(** The user message row both operations create. *)
Definition user_row (db : Db.t) (now : Z) (conversation_id : Z)
    (content : string) : Message.t :=
  {| Message.id := Db.next_id (map Message.id (Db.messages db));
     Message.conversation_id := conversation_id;
     Message.role := "user";
     Message.content := content;
     Message.tokens_used := 0;
     Message.model_used := None;
     Message.created_at := now |}.

(** The loop of [create_conversation] over [document_ids].  The lookup
    of a listed key raises when the key is out of range, and the
    exception leaves the loop. *)
Fixpoint link_documents (db : Db.t) (conversation_id : Z)
    (doc_ids : list Z) : PyExn.t + Db.t :=
  match doc_ids with
  | [] => inr db
  | doc_id :: rest =>
      match Db.first_by Document.id doc_id (Db.documents db) with
      | inl e => inl e
      | inr (Some _) =>
          let link :=
            {| ConversationDocument.id :=
                 Db.next_id (map ConversationDocument.id
                                 (Db.conversation_documents db));
               ConversationDocument.conversation_id := conversation_id;
               ConversationDocument.document_id := doc_id |} in
          link_documents (Db.add_link link db) conversation_id rest
      | inr None => link_documents db conversation_id rest
      end
  end.

(** The conversation row of [create_conversation]. *)
Definition new_conversation (db : Db.t) (user_id : Z)
    (data : ConversationCreate) : Conversation.t :=
  {| Conversation.id := Db.next_id (map Conversation.id (Db.conversations db));
     Conversation.user_id := user_id;
     Conversation.mode := mode data;
     Conversation.title :=
       Some (if 50 <? PyStr.len (first_message data)
             then PyStr.take 50 (first_message data) +:+ "..."
             else first_message data) |}.

(** [create_conversation], up to the call of [_generate_response]:
    the conversation, its links and its first user message. *)
Definition create_conversation_rows (db : Db.t) (now : Z)
    (user_id : Z) (data : ConversationCreate)
    : PyExn.t + Db.t * Conversation.t :=
  let conversation := new_conversation db user_id data in
  let db := Db.add_conversation conversation db in
  let linked :=
    match document_ids data with
    | Some (d :: ds) =>
        if String.eqb (mode data) "rag"
        then link_documents db (Conversation.id conversation) (d :: ds)
        else inr db
    | _ => inr db
    end in
  match linked with
  | inl e => inl e
  | inr db =>
      let user_message :=
        user_row db now (Conversation.id conversation) (first_message data) in
      inr (Db.add_message user_message db, conversation)
  end.

(** [create_conversation].  [user_id] is the key of a stored user: the
    endpoint passes the key of the default user.  When the operation
    raises nothing has been committed: the store stays as it was. *)
Definition create_conversation (self : t) (db : Db.t) (now : Z)
    (user_id : Z) (data : ConversationCreate)
    : PyExn.t + Db.t * Conversation.t :=
  match create_conversation_rows db now user_id data with
  | inl e => inl e
  | inr (db, conversation) =>
      let '(db, _) :=
        _generate_response self db now (Conversation.id conversation)
          (first_message data) (mode data) in
      inr (db, conversation)
  end.

(** [add_message] *)
Definition add_message (self : t) (db : Db.t) (now : Z)
    (conversation_id : Z) (content : string)
    : PyExn.t + Db.t * Message.t :=
  match Db.first_by Conversation.id conversation_id (Db.conversations db) with
  | inl e => inl e
  | inr None => inl (PyExn.ValueError "Conversation not found")
  | inr (Some conversation) =>
      let user_message := user_row db now conversation_id content in
      let db := Db.add_message user_message db in
      let '(db, _) :=
        _generate_response self db now conversation_id content
          (Conversation.mode conversation) in
      inr (db, user_message)
  end.


(** [get_or_create_user], on the user table, the one table it reads and
    writes. *)
Definition get_or_create_user (users : list User.t) (username : string)
    : list User.t * User.t :=
  match Db.first (λ u, String.eqb (User.username u) username) users with
  | Some user => (users, user)
  | None =>
      let user :=
        {| User.id := Db.next_id (map User.id users);
           User.username := username;
           User.email := None |} in
      ((users ++ [user])%list, user)
  end.

(** [get_conversation] *)
Definition get_conversation (db : Db.t) (conversation_id : Z)
    : PyExn.t + option Conversation.t :=
  Db.first_by Conversation.id conversation_id (Db.conversations db).

(** [delete_conversation]: the deletion of the conversation row cascades
    to its messages and its document links. *)
Definition delete_conversation (db : Db.t) (conversation_id : Z)
    : PyExn.t + Db.t * bool :=
  match Db.first_by Conversation.id conversation_id (Db.conversations db) with
  | inl e => inl e
  | inr None => inr (db, false)
  | inr (Some conversation) =>
      inr ({| Db.conversations :=
                filter (λ c, Conversation.id c ≠ Conversation.id conversation)
                       (Db.conversations db);
              Db.messages :=
                filter (λ m, Message.conversation_id m
                             ≠ Conversation.id conversation)
                       (Db.messages db);
              Db.documents := Db.documents db;
              Db.conversation_documents :=
                filter (λ l, ConversationDocument.conversation_id l
                             ≠ Conversation.id conversation)
                       (Db.conversation_documents db) |},
           true)
  end.
End ConversationService.

(** ** [routers/conversations.py]

    The endpoints, as functions of the user table and the store.  An
    endpoint returns a response with a status and a body, raises an
    [HTTPException] with a status and a detail, or lets another
    exception pass.  The response bodies hold the fields of the rows
    modelled here. *)

Module Router.

Inductive outcome (A : Type) : Type :=
| Response (status_code : Z) (body : A)
| HTTPException (status_code : Z) (detail : string)
| Uncaught (e : PyExn.t).
Arguments Response {A} status_code body.
Arguments HTTPException {A} status_code detail.
Arguments Uncaught {A} e.

(** The status of the answer.  The framework answers an exception that
    leaves the endpoint with 500. *)
Definition status {A} (o : outcome A) : Z :=
  match o with
  | Response status_code _ => status_code
  | HTTPException status_code _ => status_code
  | Uncaught _ => 500
  end.

(** [ConversationDetailResponse] *)
Record ConversationDetailResponse : Type := {
  id : Z;
  user_id : Z;
  title : option string;
  mode : string;
  message_count : Z;
  messages : list Message.t;
  document_ids : option (list Z)
}.

(** The response built from a conversation, its messages and its
    document links. *)
Definition detail_response (db : Db.t) (conversation : Conversation.t)
    : ConversationDetailResponse :=
  let messages :=
    ConversationService.conversation_messages db (Conversation.id conversation) in
  let doc_ids :=
    map ConversationDocument.document_id
        (filter (λ l, ConversationDocument.conversation_id l
                      = Conversation.id conversation)
                (Db.conversation_documents db)) in
  {| id := Conversation.id conversation;
     user_id := Conversation.user_id conversation;
     title := Conversation.title conversation;
     mode := Conversation.mode conversation;
     message_count := Z.of_nat (length messages);
     messages := messages;
     document_ids := match doc_ids with [] => None | _ => Some doc_ids end |}.

Section Endpoints.
(** [str(e)] of an [HTTPException], which the framework defines. *)
Variable http_exception_str : Z → string → string.
Variable conversation_service : ConversationService.t.

Definition str (e : PyExn.t) : string :=
  match e with
  | PyExn.ValueError message => message
  | PyExn.OverflowError message => message
  | PyExn.HTTPError status_code detail => http_exception_str status_code detail
  end.

(** The [try] block of [create_conversation].  The default user is
    committed before anything can raise. *)
Definition create_conversation_try (users : list User.t) (db : Db.t)
    (now : Z) (data : ConversationService.ConversationCreate)
    : list User.t * Db.t * (PyExn.t + ConversationDetailResponse) :=
  let '(users, user) :=
    ConversationService.get_or_create_user users "default" in
  if String.eqb (ConversationService.mode data) "rag"
     && match ConversationService.document_ids data with
        | Some (_ :: _) => false
        | _ => true
        end
  then
    (users, db, inl (PyExn.HTTPError 400 "document_ids required for RAG mode"))
  else
    match ConversationService.create_conversation conversation_service db now
            (User.id user) data with
    | inl e => (users, db, inl e)
    | inr (db, conversation) =>
        (users, db, inr (detail_response db conversation))
    end.

(** [POST /conversations] *)
Definition create_conversation (users : list User.t) (db : Db.t)
    (now : Z) (data : ConversationService.ConversationCreate)
    : list User.t * Db.t * outcome ConversationDetailResponse :=
  let '(users, db, result) := create_conversation_try users db now data in
  (users, db,
   match result with
   | inr body => Response 201 body
   | inl (PyExn.ValueError _ as e) => HTTPException 400 (str e)
   | inl e => HTTPException 500 ("Internal server error: " +:+ str e)
   end).

(** [GET /conversations/{conversation_id}] *)
Definition get_conversation (db : Db.t) (conversation_id : Z)
    : outcome ConversationDetailResponse :=
  match ConversationService.get_conversation db conversation_id with
  | inl e => Uncaught e
  | inr None => HTTPException 404 "Conversation not found"
  | inr (Some conversation) => Response 200 (detail_response db conversation)
  end.

(** [PUT /conversations/{conversation_id}] *)
Definition update_conversation (db : Db.t) (now : Z) (conversation_id : Z)
    (message : string) : Db.t * outcome Message.t :=
  match ConversationService.add_message conversation_service db now
          conversation_id message with
  | inr (db, message) => (db, Response 200 message)
  | inl (PyExn.ValueError _ as e) => (db, HTTPException 404 (str e))
  | inl e => (db, HTTPException 500 ("Internal server error: " +:+ str e))
  end.

(** [DELETE /conversations/{conversation_id}] *)
Definition delete_conversation (db : Db.t) (conversation_id : Z)
    : Db.t * outcome unit :=
  match ConversationService.delete_conversation db conversation_id with
  | inl e => (db, Uncaught e)
  | inr (db, success) =>
      if success then (db, Response 204 tt)
      else (db, HTTPException 404 "Conversation not found")
  end.
End Endpoints.
End Router.

(** * Vocabulary of the statements *)

(** Descending by key. *)
Definition desc {A} (key : A → Z) (x y : A) : Prop := key y <= key x.

Module Truncation.
Import LLMService.

(** The estimated token cost of an entry and of a list. *)
Definition cost (m : message) : Z := estimate_tokens (get_content m).
Definition total_cost (messages : list message) : Z :=
  PyList.sum (map cost messages).

(** The walk from the most recent entry to the oldest: an entry is
    accepted while the running total stays within the budget, and the
    walk stops at the first one that does not fit.  [kept] is in
    chronological order. *)
Fixpoint suffix_scan (max_tokens : Z) (recent_first kept : list message)
    (total : Z) : list message :=
  match recent_first with
  | [] => kept
  | m :: older =>
      if total + cost m <=? max_tokens
      then suffix_scan max_tokens older (m :: kept) (total + cost m)
      else kept
  end.

(** The History Truncator as the specification words it: identity
    within budget; otherwise the leading system entry, if any, and then
    the retained recent entries, oldest to newest. *)
Definition truncate_spec (messages : list message) (max_tokens : Z)
    : list message :=
  if total_cost messages <=? max_tokens then messages
  else
    match messages with
    | [] => []
    | first :: rest =>
        if is_system first
        then first :: suffix_scan max_tokens (rev rest) [] (cost first)
        else suffix_scan max_tokens (rev messages) [] 0
    end.

Definition user (s : string) : message := mk_message "user" s.
Definition system (s : string) : message := mk_message "system" s.
End Truncation.

Module Retrieval.
Import RAGService.

(** A document on the precomputed-chunks path. *)
Definition has_chunks (doc : Document.t) : Prop :=
  match Document.chunks doc with Some (_ :: _) => True | _ => False end.

(** A document on the fallback path: no chunks, but content. *)
Definition content_only (doc : Document.t) (content : string) : Prop :=
  (Document.chunks doc = None ∨ Document.chunks doc = Some [])
  ∧ Document.content doc = Some content
  ∧ content ≠ "".

(** The candidate chunk list: the texts of the stored chunks of the
    documents, in order. *)
Definition stored_texts (documents : list Document.t) : list string :=
  flat_map (λ d, map get_text (default [] (Document.chunks d))) documents.

(** The score of a text: the number of words it shares with the query. *)
Definition relevance (query text : string) : Z :=
  overlap (words query) (words text).
End Retrieval.

Module Fallback.
Import RAGService.

(** The fallback candidates of a document as the specification words
    them: of the sentences that mention a query word, the first
    [top_k], each scored by the words it shares with the query. *)
Definition fallback_spec (query_words : gset string) (top_k : Z)
    (content : string) : list (string * Z) :=
  map (λ sent, (PyStr.strip sent, overlap query_words (words sent)))
      (take (Z.to_nat top_k)
            (filter (λ sent, mentions query_words sent = true)
                    (PyStr.split_on "." content))).

(** The text and score of the candidates the code collects. *)
Definition collected (query_words : gset string) (top_k : Z)
    (doc : Document.t) : list (string * Z) :=
  map (λ x, (text x, score x)) (doc_candidates query_words top_k doc).
End Fallback.

(** Sample data for the instances of the statements. *)
Module Sample.
Definition pets : Document.t :=
  {| Document.id := 1; Document.filename := "pets.txt";
     Document.content := None;
     Document.chunks :=
       Some [ {["text" := "the Cat sat"]}; {["text" := "nothing here"]};
              {["text" := "dog and cat"]}; {["text" := "a dog"]} ] |}.

Definition fruit : Document.t :=
  {| Document.id := 2; Document.filename := "fruit.txt";
     Document.content := Some "zebra apple. banana. cherry. apple pie";
     Document.chunks := None |}.

Definition rag_conversation : Conversation.t :=
  {| Conversation.id := 1; Conversation.user_id := 1;
     Conversation.title := Some "cat DOG"; Conversation.mode := "rag" |}.

(** A RAG conversation linked to [pets]. *)
Definition pets_db : Db.t :=
  {| Db.conversations := [rag_conversation];
     Db.messages := [];
     Db.documents := [pets; fruit];
     Db.conversation_documents :=
       [ {| ConversationDocument.id := 1;
            ConversationDocument.conversation_id := 1;
            ConversationDocument.document_id := 1 |} ] |}.

(** A long text: the word "cat" and a space, [n] times. *)
Definition cats (n : N) : string := N.iter n (String.append "cat ") "".

Definition manual : Document.t :=
  {| Document.id := 3; Document.filename := "manual.txt";
     Document.content := None;
     Document.chunks := Some [ {["text" := cats 30660]} ] |}.

(** A RAG conversation linked to [manual]. *)
Definition manual_db : Db.t :=
  {| Db.conversations := [rag_conversation];
     Db.messages := [];
     Db.documents := [manual];
     Db.conversation_documents :=
       [ {| ConversationDocument.id := 1;
            ConversationDocument.conversation_id := 1;
            ConversationDocument.document_id := 3 |} ] |}.

Definition failing_provider : LLMService.provider :=
  λ _ _ _, inl "connection refused".

Definition greeting : ConversationService.ConversationCreate :=
  {| ConversationService.first_message := "Hello";
     ConversationService.mode := "open";
     ConversationService.document_ids := None |}.

(** The store with the two documents and nothing else. *)
Definition library : Db.t :=
  {| Db.conversations := []; Db.messages := [];
     Db.documents := [pets; fruit]; Db.conversation_documents := [] |}.

(** The least integer above the range of the store, 2^63. *)
Definition beyond : Z := 9223372036854775808.
End Sample.

Module Generation.
Import ConversationService.

(** The messages of the provider call: the [chat_messages] that
    [generate_response] builds from its arguments. *)
Definition sent_to_provider (self : t) (db : Db.t) (conversation_id : Z)
    (user_message mode : string) : list LLMService.message :=
  LLMService.chat_messages
    (message_history self db conversation_id user_message)
    (system_prompt_for db conversation_id user_message mode).

(** The history with the system entry, when a system prompt exists,
    prepended: what the specification has the truncator applied to. *)
Definition history_with_system (db : Db.t) (conversation_id : Z)
    (user_message mode : string) : list LLMService.message :=
  LLMService.chat_messages
    (untruncated_history db conversation_id user_message)
    (system_prompt_for db conversation_id user_message mode).

(** A user-role entry with the given content. *)
Definition is_user_entry (content : string) (m : LLMService.message) : bool :=
  bool_decide (m !! "role" = Some "user" ∧ m !! "content" = Some content).

Definition count_user_entries (content : string)
    (history : list LLMService.message) : nat :=
  length (filter (λ m, is_user_entry content m = true) history).

(** The store as [_generate_response] finds it when [add_message]
    calls it: the user message has been added. *)
Definition with_user_message (db : Db.t) (now : Z) (conversation_id : Z)
    (content : string) : Db.t :=
  Db.add_message (user_row db now conversation_id content) db.

(** Whether a document of that key is stored. *)
Definition document_exists (db : Db.t) (doc_id : Z) : bool :=
  existsb (λ d, Document.id d =? doc_id) (Db.documents db).

(** The keys [create_conversation] looks up: the listed ones, in RAG
    mode. *)
Definition requested (data : ConversationCreate) : list Z :=
  if String.eqb (mode data) "rag" then default [] (document_ids data) else [].

(** Every key that [create_conversation] looks up is one the store can
    hold. *)
Definition keys_in_range (data : ConversationCreate) : Prop :=
  Forall (λ i, Db.in_range i = true) (requested data).

(** The documents a conversation is linked to, in the order of the links. *)
Definition links_of (db : Db.t) (conversation_id : Z) : list Z :=
  map ConversationDocument.document_id
      (filter (λ l, ConversationDocument.conversation_id l = conversation_id)
              (Db.conversation_documents db)).

End Generation.

(** Further vocabulary. *)
Module Text.
(** The characters of a string. *)
Definition chars (s : string) : list ascii := list_ascii_of_string s.

(** A string of white space only; the empty string is one. *)
Definition blank (s : string) : bool := forallb PyStr.is_space (chars s).

(** A string of periods and white space only. *)
Definition no_sentence (s : string) : bool :=
  forallb (λ c, Ascii.eqb c "." || PyStr.is_space c) (chars s).

(** A string that starts with a character other than white space. *)
Definition starts_solid (s : string) : Prop :=
  match s with
  | String c _ => PyStr.is_space c = false
  | EmptyString => False
  end.

(** The sentences of a content: its pieces between periods, stripped,
    without the empty ones. *)
Definition sentences (content : string) : list string :=
  filter (λ s, s ≠ "") (map PyStr.strip (PyStr.split_on "." content)).
End Text.

Module Chunking.
Import Text.

(** A chunk text as [chunk_document] builds them: it starts with a
    character other than white space, ends with a period, and has at
    most [chunk_size] characters unless it is one sentence and its
    period. *)
Definition well_formed (chunk_size : Z) (known : list string) (x : string)
    : Prop :=
  starts_solid x
  ∧ (∃ a, x = a +:+ ".")
  ∧ (PyStr.len x <= chunk_size ∨ ∃ s, s ∈ known ∧ x = s +:+ ".").

Definition good_chunk (chunk_size : Z) (known : list string)
    (chunk : Document.chunk) : Prop :=
  ∃ x, chunk = {["text" := x]} ∧ well_formed chunk_size known x.

Definition good_current (chunk_size : Z) (known : list string)
    (current_chunk : string) : Prop :=
  current_chunk = ""
  ∨ ∃ x, current_chunk = x +:+ " " ∧ well_formed chunk_size known x.

(** The texts of the chunks, a space after each. *)
Definition joined (chunks : list Document.chunk) : string :=
  PyStr.concat (map (λ c, RAGService.get_text c +:+ " ") chunks).

(** The sentences, a period and a space after each. *)
Definition spoken (l : list string) : string :=
  PyStr.concat (map (λ s, s +:+ ". ") l).
End Chunking.

Module Integrity.

(** The conversation table has a key left: the key of its next row is
    one the store can hold. *)
Definition room_for_conversation (db : Db.t) : Prop :=
  Db.in_range (Db.next_id (map Conversation.id (Db.conversations db))) = true.
End Integrity.

(** Further sample data. *)
Module Fixtures.
Definition friendly_provider : LLMService.provider :=
  λ _ _ _, inr ("Hi there", 42).

(** A rendering of an [HTTPException]: the status, a colon, the detail. *)
Definition http_str (status_code : Z) (detail : string) : string :=
  PyStr.of_int status_code +:+ ": " +:+ detail.

(** A store with one open conversation and one stored message. *)
Definition chat_db : Db.t :=
  {| Db.conversations :=
       [ {| Conversation.id := 1; Conversation.user_id := 1;
            Conversation.title := Some "Hello"; Conversation.mode := "open" |} ];
     Db.messages :=
       [ {| Message.id := 1; Message.conversation_id := 1;
            Message.role := "user"; Message.content := "Hello";
            Message.tokens_used := 0; Message.model_used := None;
            Message.created_at := 0 |} ];
     Db.documents := [];
     Db.conversation_documents := [] |}.

(** The same with a stored message of 30800 tokens. *)
Definition long_db : Db.t :=
  {| Db.conversations := Db.conversations chat_db;
     Db.messages :=
       [ {| Message.id := 1; Message.conversation_id := 1;
            Message.role := "user"; Message.content := Sample.cats 30800;
            Message.tokens_used := 0; Message.model_used := None;
            Message.created_at := 0 |} ];
     Db.documents := [];
     Db.conversation_documents := [] |}.
End Fixtures.

(** * Properties *)

(** ** Lists: insertion, slicing and the stable sort *)

Section ListFacts.
Context {A : Type}.

Lemma insert_front (x : A) (l : list A) (idx : Z) :
  idx = 0 → PyList.insert idx x l = x :: l.
Proof.
  intros ->. unfold PyList.insert. simpl.
  destruct (Z.ltb_spec (Z.of_nat (length l)) 0); [lia | reflexivity].
Qed.

Lemma slice_to_nonneg (k : Z) (l : list A) :
  0 <= k → PyList.slice_to k l = take (Z.to_nat k) l.
Proof.
  intros Hk. unfold PyList.slice_to.
  destruct (Z.ltb_spec k 0); [lia | reflexivity].
Qed.

Lemma slice_to_length (k : Z) (l : list A) :
  0 <= k → Z.of_nat (length (PyList.slice_to k l)) <= k.
Proof.
  intros Hk. rewrite slice_to_nonneg by done. rewrite length_take. lia.
Qed.

Lemma filter_none (P : A → Prop) `{!∀ x, Decision (P x)} (l : list A) :
  Forall (λ x, ¬ P x) l → filter P l = [].
Proof.
  induction 1 as [|x l Hx _ IH]; [done|].
  by rewrite filter_cons, decide_False.
Qed.


Variable key : A → Z.

Lemma place_perm (x : A) (l : list A) : PyList.place key x l ≡ₚ x :: l.
Proof.
  induction l as [|y l IH]; simpl; [done|].
  destruct (key y <=? key x); [done|].
  rewrite IH. apply Permutation_swap.
Qed.

Lemma sort_desc_perm (l : list A) : PyList.sort_desc key l ≡ₚ l.
Proof.
  induction l as [|x l IH]; simpl; [done|].
  by rewrite place_perm, IH.
Qed.

Lemma place_sorted (x : A) (l : list A) :
  StronglySorted (desc key) l → StronglySorted (desc key) (PyList.place key x l).
Proof.
  induction 1 as [|y l Hl IH Hy]; simpl.
  - repeat constructor.
  - destruct (Z.leb_spec (key y) (key x)) as [Hle|Hgt].
    + constructor; [by constructor|].
      constructor; [exact Hle|].
      eapply Forall_impl; [exact Hy|]. unfold desc. intros z Hz. lia.
    + constructor; [exact IH|].
      rewrite place_perm. constructor; [unfold desc; lia | exact Hy].
Qed.

Lemma sort_desc_sorted (l : list A) : StronglySorted (desc key) (PyList.sort_desc key l).
Proof.
  induction l as [|x l IH]; simpl; [constructor|]. by apply place_sorted.
Qed.

(** Stability: within one key the order of the input is kept. *)
Lemma place_stable (s : Z) (x : A) (l : list A) :
  filter (λ y, key y = s) (PyList.place key x l)
  = filter (λ y, key y = s) (x :: l).
Proof.
  induction l as [|y l IH]; simpl; [done|].
  destruct (Z.leb_spec (key y) (key x)) as [Hle|Hgt]; [done|].
  rewrite filter_cons, IH, !filter_cons.
  repeat case_decide; try done; lia.
Qed.

Lemma sort_desc_stable (s : Z) (l : list A) :
  filter (λ y, key y = s) (PyList.sort_desc key l) = filter (λ y, key y = s) l.
Proof.
  induction l as [|x l IH]; simpl; [done|].
  by rewrite place_stable, !filter_cons, IH.
Qed.
End ListFacts.

(** ** The History Truncator *)

Module TruncationFacts.
Import LLMService Truncation.

Lemma cost_nonneg (m : message) : 0 <= cost m.
Proof.
  unfold cost, estimate_tokens, PyStr.len. apply Z.div_pos; lia.
Qed.

Lemma total_cost_nonneg (l : list message) : 0 <= total_cost l.
Proof.
  unfold total_cost.
  induction l as [|m l IH]; simpl; [lia|]. pose proof (cost_nonneg m). lia.
Qed.

Lemma truncate_within_budget messages max_tokens keep_system :
  total_cost messages <= max_tokens →
  truncate_messages messages max_tokens keep_system = messages.
Proof.
  intros H. destruct messages as [|first rest]; [reflexivity|].
  unfold truncate_messages. fold cost. fold (total_cost (first :: rest)).
  destruct (Z.leb_spec (total_cost (first :: rest)) max_tokens); [done|lia].
Qed.

(** Without a kept system entry the running total starts at the total
    of the whole list, so nothing fits. *)
Lemma scan_nothing_fits messages max_tokens idxs total :
  max_tokens < total →
  scan messages (map cost messages) max_tokens idxs [] total = [].
Proof.
  intros H. destruct idxs as [|i idxs]; simpl; [done|].
  destruct (messages !! i) as [m|] eqn:Hm; [|done].
  rewrite list_lookup_fmap, Hm. simpl.
  pose proof (cost_nonneg m).
  destruct (Z.leb_spec (total + cost m) max_tokens); [lia|done].
Qed.

Lemma truncate_over_budget_no_system first rest max_tokens keep_system :
  is_system first && keep_system = false →
  max_tokens < total_cost (first :: rest) →
  truncate_messages (first :: rest) max_tokens keep_system = [].
Proof.
  intros Hs H. unfold truncate_messages. fold cost.
  fold (total_cost (first :: rest)).
  destruct (Z.leb_spec (total_cost (first :: rest)) max_tokens); [lia|].
  rewrite Hs. by apply scan_nothing_fits.
Qed.

(** With a kept system entry every accepted entry is inserted at the
    front of [result], in front of the system entry too. *)
Lemma scan_system first rest max_tokens (j : nat) total :
  (j <= length rest)%nat →
  scan (first :: rest) (map cost (first :: rest)) max_tokens
       (rev (seq 1 j)) (drop j rest ++ [first])%list total
  = (suffix_scan max_tokens (rev (take j rest)) (drop j rest) total
     ++ [first])%list.
Proof.
  revert total. induction j as [|j IH]; intros total Hj.
  - simpl. by rewrite drop_0.
  - rewrite seq_S, rev_app_distr. simpl rev. simpl app.
    destruct (lookup_lt_is_Some_2 rest j) as [m Hm]; [lia|].
    rewrite (take_S_r _ _ _ Hm), rev_app_distr. simpl rev. simpl app.
    cbn [scan]. rewrite list_lookup_fmap. simpl. rewrite Hm. simpl.
    destruct (Z.leb_spec (total + cost m) max_tokens); [|done].
    rewrite insert_front.
    + change (m :: drop (S j) rest ++ [first])%list
        with ((m :: drop (S j) rest) ++ [first])%list.
      rewrite <- (drop_S _ _ _ Hm). apply (IH (total + cost m)). lia.
    + rewrite length_app, length_drop. simpl. lia.
Qed.

Lemma truncate_over_budget_system first rest max_tokens :
  is_system first = true →
  max_tokens < total_cost (first :: rest) →
  truncate_messages (first :: rest) max_tokens true
  = (suffix_scan max_tokens (rev rest) [] (cost first) ++ [first])%list.
Proof.
  intros Hs H. unfold truncate_messages. fold cost.
  fold (total_cost (first :: rest)).
  destruct (Z.leb_spec (total_cost (first :: rest)) max_tokens); [lia|].
  rewrite Hs. simpl andb. cbv iota beta.
  pose proof (scan_system first rest max_tokens (length rest) (cost first)
                (le_n _)) as E.
  rewrite drop_all, take_ge in E by lia. simpl app in E.
  unfold PyList.range_down. simpl length.
  replace (S (length rest) - 1)%nat with (length rest) by lia.
  exact E.
Qed.
End TruncationFacts.

Section TruncatorProperties.
Import LLMService Truncation TruncationFacts.

(** C7. A message list whose total estimated token cost, the sum over
    the entries of length(content) / 4 (integer division), is within
    the budget is returned unchanged by the History Truncator; the
    empty list is returned as the empty list. *)
Theorem truncate_messages_identity
    (messages : list message) (max_tokens : Z) (keep_system : bool) :
  truncate_messages [] max_tokens keep_system = [] ∧
  (PyList.sum
     (map (λ m, Z.of_nat (String.length (get_content m)) / 4) messages)
   <= max_tokens →
   truncate_messages messages max_tokens keep_system = messages).
Proof.
  split; [reflexivity|]. intros H. by apply truncate_within_budget.
Qed.

Lemma truncate_messages_identity_witness :
  truncate_messages [user "aaaa"; user "bbbbbbbb"] 3 true
  = [user "aaaa"; user "bbbbbbbb"].
Proof.
  apply (proj2 (truncate_messages_identity
                  [user "aaaa"; user "bbbbbbbb"] 3 true)).
  apply Z.leb_le. vm_compute. reflexivity.
Defined.

(** C6, at a list without a system entry.  The two entries cost 1
    each and the budget is 1: the walk from the most recent entry
    keeps the last entry, but [truncate_messages] starts its running
    total at the total of the whole list and returns nothing. *)
Theorem truncate_messages_keeps_nothing :
  total_cost [user "aaaa"; user "bbbb"] = 2 ∧
  truncate_messages [user "aaaa"; user "bbbb"] 1 true = [] ∧
  truncate_spec [user "aaaa"; user "bbbb"] 1 = [user "bbbb"].
Proof. vm_compute. repeat split; reflexivity. Qed.

(** C2, at a list with a system entry.  The entries cost 2, 1 and 1
    and the budget is 3: the system entry and the last entry are kept,
    but the system entry comes out last, so the output is not in the
    order of the input. *)
Theorem truncate_messages_system_last :
  truncate_messages [system "Be brief."; user "aaaa"; user "bbbb"] 3 true
  = [user "bbbb"; system "Be brief."] ∧
  truncate_spec [system "Be brief."; user "aaaa"; user "bbbb"] 3
  = [system "Be brief."; user "bbbb"] ∧
  ¬ sublist [user "bbbb"; system "Be brief."]
            [system "Be brief."; user "aaaa"; user "bbbb"].
Proof.
  split; [vm_compute; reflexivity|]. split; [vm_compute; reflexivity|].
  intros H. apply sublist_cons_r in H as [H|(l' & E & _)]; [|discriminate E].
  apply sublist_cons_r in H as [H|(l' & E & _)]; [|discriminate E].
  apply sublist_cons_r in H as [H|(l' & E & H)].
  - apply sublist_nil_r in H. discriminate H.
  - injection E as <-. apply sublist_nil_r in H. discriminate H.
Qed.
End TruncatorProperties.

(** ** The Retrieval Scorer *)

Module RetrievalFacts.
Import RAGService Retrieval.

Lemma overlap_nonneg (a b : gset string) : 0 <= overlap a b.
Proof. unfold overlap. lia. Qed.

Lemma doc_candidates_chunks query_words top_k doc :
  has_chunks doc →
  doc_candidates query_words top_k doc
  = chunk_candidates query_words (Document.filename doc)
      (default [] (Document.chunks doc)).
Proof.
  unfold has_chunks, doc_candidates.
  by destruct (Document.chunks doc) as [[|c cs]|].
Qed.

(** What the chunk branch collects: the stored texts with a positive
    score, each with its own score. *)
Lemma chunk_candidates_texts query filename chunks :
  map text (chunk_candidates (words query) filename chunks)
  = filter (λ t, 0 < relevance query t) (map get_text chunks).
Proof.
  induction chunks as [|c chunks IH]; [done|].
  cbn [chunk_candidates flat_map map].
  fold (chunk_candidates (words query) filename chunks).
  fold (words (get_text c)). fold (relevance query (get_text c)).
  rewrite filter_cons, map_app, IH.
  destruct (Z.ltb_spec 0 (relevance query (get_text c)));
    case_decide; try lia; done.
Qed.

Lemma chunk_candidates_scores query filename chunks :
  Forall (λ x, score x = relevance query (text x) ∧ 0 < score x)
         (chunk_candidates (words query) filename chunks).
Proof.
  induction chunks as [|c chunks IH]; [constructor|].
  cbn [chunk_candidates flat_map].
  fold (chunk_candidates (words query) filename chunks).
  fold (words (get_text c)). fold (relevance query (get_text c)).
  destruct (Z.ltb_spec 0 (relevance query (get_text c))); [|exact IH].
  constructor; [split; [reflexivity | assumption] | exact IH].
Qed.

Lemma relevant_chunks_texts query top_k documents :
  Forall has_chunks documents →
  map text (flat_map (doc_candidates (words query) top_k) documents)
  = filter (λ t, 0 < relevance query t) (stored_texts documents).
Proof.
  induction 1 as [|d documents Hd _ IH]; [done|].
  cbn [flat_map stored_texts].
  fold (stored_texts documents).
  rewrite map_app, filter_app, IH, (doc_candidates_chunks _ _ _ Hd).
  by rewrite chunk_candidates_texts.
Qed.

Lemma relevant_chunks_scores query top_k documents :
  Forall has_chunks documents →
  Forall (λ x, score x = relevance query (text x) ∧ 0 < score x)
         (flat_map (doc_candidates (words query) top_k) documents).
Proof.
  induction 1 as [|d documents Hd _ IH]; [constructor|].
  cbn [flat_map]. apply Forall_app. split; [|exact IH].
  rewrite (doc_candidates_chunks _ _ _ Hd). apply chunk_candidates_scores.
Qed.

(** From the scored entries to their texts. *)
Lemma sorted_texts query (l : list scored) :
  Forall (λ x, score x = relevance query (text x)) l →
  StronglySorted (desc score) l →
  StronglySorted (desc (relevance query)) (map text l).
Proof.
  intros Hl Hs. induction Hs as [|x l Hs IH Hx]; [constructor|].
  apply Forall_cons in Hl as [Ex Hl]. simpl. constructor; [by apply IH|].
  apply Forall_fmap, Forall_forall. intros y Hy.
  rewrite Forall_forall in Hx, Hl. specialize (Hx y Hy). specialize (Hl y Hy).
  unfold desc in *. simpl. lia.
Qed.

Lemma class_texts query (s : Z) (l : list scored) :
  Forall (λ x, score x = relevance query (text x)) l →
  filter (λ t, relevance query t = s) (map text l)
  = map text (filter (λ x, score x = s) l).
Proof.
  induction 1 as [|x l Ex _ IH]; [done|].
  simpl. rewrite !filter_cons, IH.
  repeat case_decide; try done; lia.
Qed.

(** Outside a RAG conversation nothing is retrieved; inside, the
    result is the ranking of the linked documents. *)
Lemma retrieve_rag db conversation_id conversation user_query top_k :
  Db.first (λ c, Conversation.id c =? conversation_id) (Db.conversations db)
    = Some conversation →
  Conversation.mode conversation = "rag" →
  retrieve_relevant_chunks db conversation_id user_query top_k
  = map text (rank (linked_documents db conversation_id) user_query top_k).
Proof.
  intros Hc Hm. unfold retrieve_relevant_chunks. rewrite Hc, Hm. simpl.
  unfold linked_documents.
  destruct (filter _ (Db.conversation_documents db)) as [|l ls] eqn:E; [|done].
  assert (filter (λ d, Document.id d
                       ∈ map ConversationDocument.document_id [])
                 (Db.documents db) = []) as ->.
  { induction (Db.documents db) as [|d ds IH]; [done|].
    rewrite filter_cons. simpl in *. exact IH. }
  unfold rank, PyList.slice_to. simpl. by rewrite take_nil.
Qed.
End RetrievalFacts.

Section RankingProperties.
Import RAGService Retrieval RetrievalFacts.

(** C5.  [top_k] is a number of chunks, so it is not negative.  On the
    precomputed-chunks path (a RAG conversation whose linked documents
    all have stored chunks) the Retrieval Scorer returns at most [top_k]
    texts;
    every returned text is a candidate whose score, the number of words
    shared by the lowercased, white-space split query and chunk, is
    greater than 0; the result is in descending order of score; and it
    is the front of a ranking in which the candidates of any one score
    stand in their original candidate order. *)
Theorem retrieve_relevant_chunks_ranked
    (db : Db.t) (conversation_id : Z) (conversation : Conversation.t)
    (user_query : string) (top_k : Z) :
  Db.first (λ c, Conversation.id c =? conversation_id) (Db.conversations db)
    = Some conversation →
  Conversation.mode conversation = "rag" →
  Forall has_chunks (linked_documents db conversation_id) →
  0 <= top_k →
  let out := retrieve_relevant_chunks db conversation_id user_query top_k in
  let candidates := stored_texts (linked_documents db conversation_id) in
  Z.of_nat (length out) <= top_k
  ∧ Forall (λ t, t ∈ candidates ∧ 0 < relevance user_query t) out
  ∧ StronglySorted (desc (relevance user_query)) out
  ∧ ∃ ranked,
      out = take (Z.to_nat top_k) ranked
      ∧ StronglySorted (desc (relevance user_query)) ranked
      ∧ ∀ s, filter (λ t, relevance user_query t = s) ranked
             = filter (λ t, relevance user_query t = s)
                 (filter (λ t, 0 < relevance user_query t) candidates).
Proof.
  intros Hc Hm Hd Hk out candidates. subst out candidates.
  rewrite (retrieve_rag _ _ _ _ _ Hc Hm).
  set (documents := linked_documents db conversation_id) in *.
  unfold rank. fold (words user_query).
  set (relevant := flat_map (doc_candidates (words user_query) top_k) documents).
  pose proof (relevant_chunks_scores user_query top_k documents Hd) as Hsc.
  pose proof (relevant_chunks_texts user_query top_k documents Hd) as Htx.
  fold relevant in Hsc, Htx.
  set (sorted := PyList.sort_desc score relevant).
  assert (Forall (λ x, score x = relevance user_query (text x) ∧ 0 < score x)
                 sorted) as Hsorted.
  { unfold sorted. by rewrite sort_desc_perm. }
  assert (Forall (λ x, score x = relevance user_query (text x)) sorted) as Heq.
  { eapply Forall_impl; [exact Hsorted|]. by intros x [? _]. }
  assert (StronglySorted (desc (relevance user_query)) (map text sorted)) as Hss.
  { apply sorted_texts; [exact Heq|]. apply sort_desc_sorted. }
  rewrite slice_to_nonneg by done.
  change (map text (take (Z.to_nat top_k) sorted))
    with (text <$> take (Z.to_nat top_k) sorted).
  rewrite fmap_take. change (text <$> sorted) with (map text sorted).
  split; [rewrite length_take; lia|].
  split.
  { apply Forall_take, Forall_fmap, Forall_forall. intros x Hx. simpl.
    rewrite Forall_forall in Hsorted. destruct (Hsorted x Hx) as [Ex Hpos].
    split; [|lia].
    assert (text x ∈ map text relevant) as Hin.
    { apply list_elem_of_fmap. exists x. split; [done|].
      by rewrite <- (sort_desc_perm score relevant). }
    rewrite Htx in Hin. by apply list_elem_of_filter in Hin as [_ ?]. }
  split.
  { rewrite <- (take_drop (Z.to_nat top_k) (map text sorted)) in Hss.
    by apply StronglySorted_app_1_l in Hss. }
  exists (map text sorted). split; [done|]. split; [exact Hss|].
  intros s. rewrite (class_texts _ _ _ Heq). unfold sorted.
  rewrite sort_desc_stable, <- Htx.
  symmetry. apply class_texts.
  eapply Forall_impl; [exact Hsc|]. by intros x [? _].
Qed.

Lemma retrieve_relevant_chunks_ranked_witness :
  Z.of_nat (length (retrieve_relevant_chunks Sample.pets_db 1 "cat DOG" 2)) <= 2.
Proof.
  refine (proj1 (retrieve_relevant_chunks_ranked Sample.pets_db 1
                   Sample.rag_conversation "cat DOG" 2 _ _ _ _)).
  - reflexivity.
  - reflexivity.
  - vm_compute. repeat constructor.
  - lia.
Defined.

Example retrieve_sample :
  retrieve_relevant_chunks Sample.pets_db 1 "cat DOG" 3
  = ["dog and cat"; "the Cat sat"; "a dog"].
Proof. vm_compute. reflexivity. Qed.

End RankingProperties.

Section FallbackProperties.
Import RAGService Retrieval Fallback.

Lemma flat_map_if {A B} (p : A → bool) (f : A → B) (l : list A) :
  flat_map (λ x, if p x then [f x] else []) l
  = map f (filter (λ x, p x = true) l).
Proof.
  induction l as [|x l IH]; [done|].
  simpl. rewrite filter_cons, IH.
  destruct (p x); case_decide; done.
Qed.

(** C8, as the code has it.  A document without stored chunks whose
    content shares no word with the query gives no candidate.
    Otherwise the content is split at the periods, the first [top_k]
    pieces are taken (for a count [top_k] that is not negative), and
    of these the ones whose lowercased text contains a query word as a
    substring become candidates: the stripped piece, scored with the
    number of words the query shares with the whole content.  This is
    done for each document on its own, before the candidates of all
    documents are sorted and cut. *)
Theorem doc_candidates_fallback
    (query_words : gset string) (top_k : Z) (doc : Document.t)
    (content : string) :
  content_only doc content →
  0 <= top_k →
  doc_candidates query_words top_k doc
  = (if 0 <? overlap query_words (words content)
     then
       map (λ sent, {| text := PyStr.strip sent;
                       score := overlap query_words (words content);
                       source := Document.filename doc |})
           (filter (λ sent, mentions query_words sent = true)
                   (take (Z.to_nat top_k) (PyStr.split_on "." content)))
     else [])
  ∧ ∀ documents user_query,
      rank documents user_query top_k
      = take (Z.to_nat top_k)
          (PyList.sort_desc score
             (flat_map (doc_candidates (words user_query) top_k) documents)).
Proof.
  intros (Hch & Hco & Hne) Hk. split.
  - unfold doc_candidates. rewrite Hco.
    assert (PyStr.truthy content = true) as ->.
    { by destruct content. }
    assert (match Document.chunks doc with
            | Some (c :: cs) =>
                chunk_candidates query_words (Document.filename doc) (c :: cs)
            | _ => content_candidates query_words top_k
                     (Document.filename doc) content
            end
            = content_candidates query_words top_k
                (Document.filename doc) content) as ->.
    { by destruct Hch as [-> | ->]. }
    unfold content_candidates. fold (words content).
    destruct (0 <? overlap query_words (words content)); [|done].
    by rewrite flat_map_if, slice_to_nonneg.
  - intros documents user_query. unfold rank.
    by rewrite slice_to_nonneg.
Qed.

Lemma doc_candidates_fallback_witness :
  length (doc_candidates (words "apple pie") 3 Sample.fruit) = 1%nat.
Proof.
  assert (content_only Sample.fruit "zebra apple. banana. cherry. apple pie")
    as Hdoc.
  { split; [left; reflexivity | split; [reflexivity | discriminate]]. }
  rewrite (proj1 (doc_candidates_fallback (words "apple pie") 3 Sample.fruit
                    "zebra apple. banana. cherry. apple pie" Hdoc ltac:(lia))).
  vm_compute. reflexivity.
Defined.

(** C8 as stated fails.  The content shares two words with the query
    ["apple pie"] and has four sentences; with [top_k = 3] the
    sentences that mention a query word are the first and the fourth.
    The specification's wording takes both and scores them 1 and 2; the
    code looks at the first three sentences only and scores its one
    candidate with the overlap of the whole content, 2. *)
Lemma doc_candidates_fallback_differs :
  collected (words "apple pie") 3 Sample.fruit = [("zebra apple", 2)]
  ∧ fallback_spec (words "apple pie") 3
      "zebra apple. banana. cherry. apple pie"
    = [("zebra apple", 1); ("apple pie", 2)]
  ∧ collected (words "apple pie") 3 Sample.fruit
    ≠ fallback_spec (words "apple pie") 3
        "zebra apple. banana. cherry. apple pie".
Proof.
  split; [vm_compute; reflexivity|].
  split; [vm_compute; reflexivity|].
  vm_compute. discriminate.
Qed.
End FallbackProperties.

(** ** The Context Assembler *)

Section AssemblerProperties.
Import RAGService.

Lemma append_assoc (a b c : string) : (a +:+ b) +:+ c = a +:+ (b +:+ c).
Proof.
  induction a as [|x a IH]; [done|].
  change (String x ((a +:+ b) +:+ c) = String x (a +:+ (b +:+ c))).
  by rewrite IH.
Qed.

Lemma append_empty_r (a : string) : a +:+ "" = a.
Proof.
  induction a as [|x a IH]; [done|].
  change (String x (a +:+ "") = String x a). by rewrite IH.
Qed.

Lemma foldl_items (context : string) (l : list (Z * string)) :
  foldl (λ context p, context +:+ item p) context l
  = context +:+ PyStr.concat (map item l).
Proof.
  revert context. induction l as [|p l IH]; intros context.
  - simpl. by rewrite append_empty_r.
  - change (PyStr.concat (map item (p :: l)))
      with (item p +:+ PyStr.concat (map item l)).
    simpl. by rewrite IH, append_assoc.
Qed.

Lemma enumerate_length {A} (i : Z) (l : list A) :
  length (enumerate i l) = length l.
Proof. revert i. induction l as [|x l IH]; intros i; simpl; [done|]. by rewrite IH. Qed.

Lemma enumerate_lookup {A} (i : Z) (l : list A) (n : nat) (x : A) :
  l !! n = Some x → enumerate i l !! n = Some (i + Z.of_nat n, x).
Proof.
  revert i n. induction l as [|y l IH]; intros i [|n] H; simplify_eq/=.
  - by rewrite Z.add_0_r.
  - rewrite (IH (i + 1) n H). do 2 f_equal. lia.
Qed.

(** C9. For the empty chunk sequence the Context Assembler returns the
    empty string.  For N > 0 chunks it returns the preamble line
    "Relevant context from documents:" and a blank line, followed by
    exactly N items in the order of the chunks, the item of the chunk
    number i (from 1) being "[i] ", the chunk and a blank line. *)
Theorem format_context_items (chunks : list string) :
  format_context [] = ""
  ∧ (chunks ≠ [] →
     ∃ items : list string,
       length items = length chunks
       ∧ format_context chunks
         = "Relevant context from documents:" +:+ PyStr.nl +:+ PyStr.nl
           +:+ PyStr.concat items
       ∧ ∀ (i : nat) (chunk : string),
           chunks !! i = Some chunk →
           items !! i
           = Some ("[" +:+ PyStr.of_int (Z.of_nat i + 1) +:+ "] " +:+ chunk
                   +:+ PyStr.nl +:+ PyStr.nl)).
Proof.
  split; [reflexivity|]. intros Hne.
  exists (map item (enumerate 1 chunks)). split; [|split].
  - by rewrite length_map, enumerate_length.
  - destruct chunks as [|c chunks]; [done|].
    unfold format_context. rewrite foldl_items. unfold preamble.
    by rewrite !append_assoc.
  - intros i chunk Hi.
    change (map item (enumerate 1 chunks)) with (item <$> enumerate 1 chunks).
    rewrite list_lookup_fmap, (enumerate_lookup 1 chunks i chunk Hi). simpl.
    unfold item. simpl. do 4 f_equal. lia.
Qed.

Lemma format_context_items_witness :
  ∃ items : list string,
    length items = 2%nat
    ∧ format_context ["alpha"; "beta"]
      = "Relevant context from documents:" +:+ PyStr.nl +:+ PyStr.nl
        +:+ PyStr.concat items
    ∧ items !! 1%nat
      = Some ("[" +:+ PyStr.of_int 2 +:+ "] " +:+ "beta"
              +:+ PyStr.nl +:+ PyStr.nl).
Proof.
  destruct (proj2 (format_context_items ["alpha"; "beta"]))
    as (items & Hlength & Hformat & Hitem).
  - discriminate.
  - exists items. split; [exact Hlength|]. split; [exact Hformat|].
    apply (Hitem 1%nat "beta"). reflexivity.
Defined.

Example format_context_sample :
  format_context ["alpha"; "beta"]
  = "Relevant context from documents:" +:+ PyStr.nl +:+ PyStr.nl
    +:+ "[1] alpha" +:+ PyStr.nl +:+ PyStr.nl
    +:+ "[2] beta" +:+ PyStr.nl +:+ PyStr.nl.
Proof. vm_compute. reflexivity. Qed.
End AssemblerProperties.

(** ** The Generation Orchestrator *)

Module GenerationFacts.
Import ConversationService Generation.

(** The one call of the provider, and what becomes of its outcome. *)
Lemma generate_response_call self db now conversation_id user_message mode :
  _generate_response self db now conversation_id user_message mode
  = let response :=
      match LLMService.client (llm_service self)
              (LLMService.default_model (llm_service self))
              (sent_to_provider self db conversation_id user_message mode)
              (LLMService.max_tokens (llm_service self)) with
      | inr (text, total) =>
          {| LLMService.content := text;
             LLMService.tokens_used := total;
             LLMService.model_used :=
               Some (LLMService.default_model (llm_service self)) |}
      | inl e => fallback ("LLM API error: " +:+ e)
      end in
    (Db.add_message (assistant_row db now conversation_id response) db,
     assistant_row db now conversation_id response).
Proof.
  unfold _generate_response, LLMService.generate_response, sent_to_provider.
  by destruct (LLMService.client _ _ _ _) as [e|[text total]].
Qed.

Lemma system_prompt_truthy db conversation_id user_message mode p :
  system_prompt_for db conversation_id user_message mode = Some p →
  PyStr.truthy p = true.
Proof.
  unfold system_prompt_for. destruct (String.eqb mode "rag"); [|done].
  destruct (PyStr.truthy _); [|done]. by intros [= <-].
Qed.

Lemma lookup_role role content :
  LLMService.mk_message role content !! "role" = Some role.
Proof. unfold LLMService.mk_message. by rewrite lookup_insert_eq. Qed.

Lemma lookup_content role content :
  LLMService.mk_message role content !! "content" = Some content.
Proof.
  unfold LLMService.mk_message.
  rewrite lookup_insert_ne by done. by rewrite lookup_insert_eq.
Qed.

Lemma is_user_entry_user content :
  is_user_entry content (LLMService.mk_message "user" content) = true.
Proof.
  unfold is_user_entry. apply bool_decide_eq_true.
  by rewrite lookup_role, lookup_content.
Qed.

Lemma is_system_role role content :
  role ≠ "system" →
  LLMService.is_system (LLMService.mk_message role content) = false.
Proof.
  intros H. unfold LLMService.is_system. apply bool_decide_eq_false.
  rewrite lookup_role. congruence.
Qed.

Lemma count_member content (m : LLMService.message) history :
  m ∈ history → is_user_entry content m = true →
  (1 <= count_user_entries content history)%nat.
Proof.
  intros Hin Hm. unfold count_user_entries.
  assert (m ∈ filter (λ m, is_user_entry content m = true) history) as H.
  { by apply list_elem_of_filter. }
  destruct (filter _ history); [by apply elem_of_nil in H | simpl; lia].
Qed.

Lemma count_app content (h1 h2 : list LLMService.message) :
  count_user_entries content (h1 ++ h2)
  = (count_user_entries content h1 + count_user_entries content h2)%nat.
Proof. unfold count_user_entries. by rewrite filter_app, length_app. Qed.

(** The stored rows of the conversation once the user message is in:
    the new row is among them. *)
Lemma user_row_loaded db now conversation_id content :
  user_row db now conversation_id content
  ∈ conversation_messages (with_user_message db now conversation_id content)
      conversation_id.
Proof.
  unfold conversation_messages. rewrite sort_desc_perm.
  apply list_elem_of_filter. split; [reflexivity|].
  unfold with_user_message. simpl. apply elem_of_app. right. apply list_elem_of_singleton.
  reflexivity.
Qed.

(** A history within the budget is sent whole, behind the system entry
    if there is one. *)
Lemma sent_within_budget self db conversation_id user_message mode :
  Truncation.total_cost (untruncated_history db conversation_id user_message)
    <= max_context self →
  sent_to_provider self db conversation_id user_message mode
  = history_with_system db conversation_id user_message mode.
Proof.
  intros H. unfold sent_to_provider, history_with_system, message_history.
  rewrite TruncationFacts.truncate_within_budget by exact H. reflexivity.
Qed.

(** Before the truncation the new user text is there at least twice:
    once from the store and once appended. *)
Lemma untruncated_history_twice db now conversation_id content :
  (2 <= count_user_entries content
          (untruncated_history
             (with_user_message db now conversation_id content)
             conversation_id content))%nat.
Proof.
  unfold untruncated_history. rewrite count_app.
  pose proof (user_row_loaded db now conversation_id content) as Hin.
  assert (1 <= count_user_entries content
                 (map (λ msg, LLMService.mk_message (Message.role msg)
                                (Message.content msg))
                      (conversation_messages
                         (with_user_message db now conversation_id content)
                         conversation_id)))%nat as H1.
  { apply (count_member _ (LLMService.mk_message "user" content)).
    - apply list_elem_of_fmap.
      exists (user_row db now conversation_id content).
      split; [reflexivity | exact Hin].
    - apply is_user_entry_user. }
  assert (count_user_entries content [LLMService.mk_message "user" content]
          = 1%nat) as H2.
  { unfold count_user_entries. rewrite filter_cons.
    rewrite decide_True by apply is_user_entry_user. reflexivity. }
  lia.
Qed.

(** In a store without system rows the truncator gets a list without a
    leading system entry, so it returns the whole of it or nothing: the
    new user text is never sent exactly once. *)
Lemma message_history_never_once self db now conversation_id content :
  Forall (λ m, Message.role m ≠ "system") (Db.messages db) →
  count_user_entries content
    (message_history self
       (with_user_message db now conversation_id content)
       conversation_id content) ≠ 1%nat.
Proof.
  intros Hroles.
  pose proof (untruncated_history_twice db now conversation_id content) as H2.
  unfold message_history.
  set (db1 := with_user_message db now conversation_id content) in *.
  destruct (Z.le_gt_cases
              (Truncation.total_cost
                 (untruncated_history db1 conversation_id content))
              (max_context self)) as [Hfit|Hover].
  - rewrite TruncationFacts.truncate_within_budget by exact Hfit. lia.
  - pose proof (user_row_loaded db now conversation_id content) as Hin.
    fold db1 in Hin. revert Hover.
    unfold untruncated_history.
    assert (Forall (λ m, Message.role m ≠ "system")
                   (conversation_messages db1 conversation_id)) as Hall.
    { unfold conversation_messages. rewrite sort_desc_perm.
      apply Forall_forall. intros m [_ Hm]%list_elem_of_filter.
      unfold db1, with_user_message in Hm. simpl in Hm.
      apply elem_of_app in Hm as [Hm|Hm].
      - rewrite Forall_forall in Hroles. by apply Hroles.
      - apply list_elem_of_singleton in Hm as ->. simpl. discriminate. }
    destruct (conversation_messages db1 conversation_id) as [|m ms];
      [by apply elem_of_nil in Hin|].
    apply Forall_cons in Hall as [Hm _].
    rewrite map_cons, <- app_comm_cons. intros Hover.
    rewrite TruncationFacts.truncate_over_budget_no_system; [done| |exact Hover].
    by rewrite is_system_role.
Qed.

(** *** Linking documents *)

Lemma first_exists {A} (p : A → bool) (rows : list A) :
  existsb p rows = false → Db.first p rows = None.
Proof.
  unfold Db.first. induction rows as [|r rows IH]; [done|].
  simpl. intros [Hr Hrows]%orb_false_iff.
  rewrite filter_cons, decide_False by congruence. by apply IH.
Qed.

Lemma first_found {A} (p : A → bool) (rows : list A) :
  existsb p rows = true → is_Some (Db.first p rows).
Proof.
  unfold Db.first. induction rows as [|r rows IH]; [done|].
  simpl. rewrite filter_cons. destruct (p r) eqn:Hr.
  - rewrite decide_True by done. by eexists.
  - rewrite decide_False by congruence. simpl. exact IH.
Qed.

(** A row with the key looked for, after rows without it, is the first. *)
Lemma first_appended {A} (p : A → bool) (rows : list A) (r : A) :
  existsb p rows = false → p r = true → Db.first p (rows ++ [r]) = Some r.
Proof.
  intros Hrows Hr. unfold Db.first. rewrite filter_app.
  pose proof (first_exists p rows Hrows) as Hnone. unfold Db.first in Hnone.
  destruct (filter _ rows); [|done]. simpl.
  rewrite filter_cons, decide_True by done. reflexivity.
Qed.

Lemma next_id_above (ids : list Z) : Forall (λ i, i < Db.next_id ids) ids.
Proof.
  unfold Db.next_id. induction ids as [|i ids IH]; [constructor|].
  simpl. constructor; [lia|].
  eapply Forall_impl; [exact IH|]. simpl. intros j Hj. lia.
Qed.

(** *** Binding a key *)

Lemma first_by_in_range {A} (key : A → Z) (v : Z) (rows : list A) :
  Db.in_range v = true →
  Db.first_by key v rows = inr (Db.first (λ r, key r =? v) rows).
Proof. unfold Db.first_by. by intros ->. Qed.

Lemma first_by_out_of_range {A} (key : A → Z) (v : Z) (rows : list A) :
  Db.in_range v = false → Db.first_by key v rows = inl Db.too_large.
Proof. unfold Db.first_by. by intros ->. Qed.

Lemma first_by_returns {A} (key : A → Z) (v : Z) (rows : list A)
    (found : option A) :
  Db.first_by key v rows = inr found
  ↔ Db.in_range v = true ∧ Db.first (λ r, key r =? v) rows = found.
Proof.
  unfold Db.first_by. destruct (Db.in_range v).
  - split; [by intros [= <-] | by intros [_ <-]].
  - split; [done | by intros [? _]].
Qed.

Lemma first_by_raises {A} (key : A → Z) (v : Z) (rows : list A) (e : PyExn.t) :
  Db.first_by key v rows = inl e ↔ Db.in_range v = false ∧ e = Db.too_large.
Proof.
  unfold Db.first_by. destruct (Db.in_range v).
  - split; [done | by intros [? _]].
  - split; [by intros [= <-] | by intros [_ ->]].
Qed.

(** *** The loop over the listed keys *)

(** When every listed key is in range the loop returns.  It touches the
    link table only, and adds one link for each listed key of a stored
    document, in order. *)
Lemma link_documents_returns db conversation_id ids :
  Forall (λ i, Db.in_range i = true) ids →
  ∃ db' new,
    link_documents db conversation_id ids = inr db'
    ∧ Db.conversation_documents db'
      = (Db.conversation_documents db ++ new)%list
    ∧ map ConversationDocument.document_id new
      = filter (λ i, document_exists db i = true) ids
    ∧ Forall (λ l, ConversationDocument.conversation_id l = conversation_id) new
    ∧ Db.conversations db' = Db.conversations db
    ∧ Db.messages db' = Db.messages db
    ∧ Db.documents db' = Db.documents db.
Proof.
  intros Hids. revert db.
  induction Hids as [|i ids Hi Hids IH]; intros db.
  - exists db, []. simpl. by rewrite app_nil_r.
  - simpl. rewrite (first_by_in_range _ _ _ Hi), filter_cons.
    destruct (document_exists db i) eqn:Hex.
    + destruct (first_found _ _ Hex) as [d Hd].
      unfold document_exists in Hex. rewrite Hd.
      match goal with |- context [Db.add_link ?l db] => set (link := l) end.
      destruct (IH (Db.add_link link db))
        as (db' & new & E & Hl & Hnew & Hall & Hc & Hm & Hdocs).
      exists db', (link :: new). split; [exact E|].
      rewrite Hl. simpl. rewrite <- app_assoc. simpl.
      split; [reflexivity|]. split; [f_equal; exact Hnew|].
      split; [by constructor|]. by rewrite Hc, Hm, Hdocs.
    + unfold document_exists in Hex. rewrite (first_exists _ _ Hex).
      destruct (IH db) as (db' & new & E & Hl & Hnew & Hrest).
      exists db', new. split; [exact E|]. split; [exact Hl|].
      split; [exact Hnew | exact Hrest].
Qed.

(** When a listed key is out of range the loop raises. *)
Lemma link_documents_raises db conversation_id ids :
  ¬ Forall (λ i, Db.in_range i = true) ids →
  link_documents db conversation_id ids = inl Db.too_large.
Proof.
  revert db. induction ids as [|i ids IH]; intros db Hnot.
  - destruct Hnot. constructor.
  - simpl. destruct (Db.in_range i) eqn:Hi.
    + rewrite (first_by_in_range _ _ _ Hi).
      assert (¬ Forall (λ i, Db.in_range i = true) ids) as Hrest.
      { intros H. apply Hnot. by constructor. }
      destruct (Db.first _ (Db.documents db)); by apply IH.
    + by rewrite (first_by_out_of_range _ _ _ Hi).
Qed.

Lemma next_id_fresh (rows : list Conversation.t) :
  existsb (λ c, Conversation.id c =? Db.next_id (map Conversation.id rows)) rows
  = false.
Proof.
  pose proof (next_id_above (map Conversation.id rows)) as H.
  revert H. generalize (Db.next_id (map Conversation.id rows)). intros n H.
  induction rows as [|c rows IH]; [done|].
  simpl in *. apply Forall_cons in H as [Hc H].
  rewrite (IH H). destruct (Z.eqb_spec (Conversation.id c) n); [lia|done].
Qed.

(** [_generate_response] adds one row to the messages and touches no
    other table. *)
Lemma generate_response_tables self db now conversation_id user_message mode :
  ∃ a,
    _generate_response self db now conversation_id user_message mode
    = (Db.add_message a db, a)
    ∧ Message.role a = "assistant"
    ∧ Message.conversation_id a = conversation_id
    ∧ Message.id a = Db.next_id (map Message.id (Db.messages db)).
Proof. rewrite generate_response_call. cbv zeta. by eexists. Qed.

(** [create_conversation_rows] as one run of the loop over the keys it
    looks up. *)
Lemma create_conversation_rows_loop db now user_id data :
  create_conversation_rows db now user_id data
  = match link_documents
            (Db.add_conversation (new_conversation db user_id data) db)
            (Conversation.id (new_conversation db user_id data))
            (requested data) with
    | inl e => inl e
    | inr linked =>
        inr (Db.add_message
               (user_row linked now
                  (Conversation.id (new_conversation db user_id data))
                  (first_message data))
               linked,
             new_conversation db user_id data)
    end.
Proof.
  unfold create_conversation_rows, requested.
  destruct (document_ids data) as [[|d ds]|];
    destruct (String.eqb (mode data) "rag"); reflexivity.
Qed.

(** The rows [create_conversation_rows] enters when the keys it looks
    up are in range. *)
Lemma create_conversation_rows_returns db now user_id data :
  keys_in_range data →
  ∃ db1 new,
    create_conversation_rows db now user_id data
    = inr (db1, new_conversation db user_id data)
    ∧ Db.conversations db1
      = (Db.conversations db ++ [new_conversation db user_id data])%list
    ∧ Db.messages db1
      = (Db.messages db
         ++ [user_row db now (Conversation.id (new_conversation db user_id data))
               (first_message data)])%list
    ∧ Db.documents db1 = Db.documents db
    ∧ Db.conversation_documents db1
      = (Db.conversation_documents db ++ new)%list
    ∧ Forall (λ l, ConversationDocument.conversation_id l
                   = Conversation.id (new_conversation db user_id data)) new
    ∧ map ConversationDocument.document_id new
      = filter (λ i, document_exists db i = true) (requested data).
Proof.
  intros Hkeys. rewrite create_conversation_rows_loop.
  set (conversation := new_conversation db user_id data).
  destruct (link_documents_returns (Db.add_conversation conversation db)
              (Conversation.id conversation) (requested data) Hkeys)
    as (linked & new & -> & Hl & Hnew & Hall & Hc & Hm & Hd).
  exists (Db.add_message
            (user_row linked now (Conversation.id conversation)
               (first_message data)) linked), new.
  split; [reflexivity|]. cbn [Db.conversations Db.messages Db.documents
                               Db.conversation_documents Db.add_message].
  rewrite Hc, Hm, Hd, Hl. repeat split; try done.
  unfold user_row. by rewrite Hm.
Qed.

(** What [create_conversation] returns and stores when the keys it
    looks up are in range. *)
Lemma create_conversation_returns self db now user_id data :
  keys_in_range data →
  ∃ db' new a,
    create_conversation self db now user_id data
    = inr (db', new_conversation db user_id data)
    ∧ Db.conversations db'
      = (Db.conversations db ++ [new_conversation db user_id data])%list
    ∧ Db.messages db'
      = (Db.messages db
         ++ [user_row db now (Conversation.id (new_conversation db user_id data))
               (first_message data); a])%list
    ∧ Message.role a = "assistant"
    ∧ Message.conversation_id a
      = Conversation.id (new_conversation db user_id data)
    ∧ Db.documents db' = Db.documents db
    ∧ Db.conversation_documents db'
      = (Db.conversation_documents db ++ new)%list
    ∧ Forall (λ l, ConversationDocument.conversation_id l
                   = Conversation.id (new_conversation db user_id data)) new
    ∧ map ConversationDocument.document_id new
      = filter (λ i, document_exists db i = true) (requested data).
Proof.
  intros Hkeys.
  destruct (create_conversation_rows_returns db now user_id data Hkeys)
    as (db1 & new & Hrows & Hc & Hm & Hd & Hl & Hall & Hnew).
  unfold create_conversation. rewrite Hrows.
  destruct (generate_response_tables self db1 now
              (Conversation.id (new_conversation db user_id data))
              (first_message data) (mode data))
    as (a & -> & Hrole & Hconv & _).
  exists (Db.add_message a db1), new, a. split; [reflexivity|].
  cbn [Db.conversations Db.messages Db.documents
       Db.conversation_documents Db.add_message].
  rewrite Hm, <- app_assoc. by repeat split.
Qed.

(** [create_conversation] raises when a key it looks up is out of
    range. *)
Lemma create_conversation_raises self db now user_id data :
  ¬ keys_in_range data →
  create_conversation self db now user_id data = inl Db.too_large.
Proof.
  intros Hkeys. unfold create_conversation.
  rewrite create_conversation_rows_loop.
  by rewrite (link_documents_raises _ _ _ Hkeys).
Qed.

(** The key of a new conversation is the key of no stored one. *)
Lemma new_conversation_found db user_id data :
  Db.first (λ c, Conversation.id c
                 =? Conversation.id (new_conversation db user_id data))
    (Db.conversations db ++ [new_conversation db user_id data])%list
  = Some (new_conversation db user_id data).
Proof. apply first_appended; [apply next_id_fresh | apply Z.eqb_refl]. Qed.
End GenerationFacts.

Section GenerationProperties.
Import ConversationService Generation GenerationFacts.

(** C4. When the call of the provider raises an error, the reply
    generation returns all the same: it builds an assistant message
    whose content is the apology followed by the description of the
    error, with 0 tokens consumed and no model identifier, and adds it
    to the messages of the store. *)
Theorem generate_response_failure
    (self : t) (db : Db.t) (now conversation_id : Z)
    (user_message mode e : string) :
  LLMService.client (llm_service self)
    (LLMService.default_model (llm_service self))
    (sent_to_provider self db conversation_id user_message mode)
    (LLMService.max_tokens (llm_service self)) = inl e →
  ∃ (db' : Db.t) (a : Message.t),
    _generate_response self db now conversation_id user_message mode = (db', a)
    ∧ Message.role a = "assistant"
    ∧ Message.conversation_id a = conversation_id
    ∧ Message.content a
      = "I apologize, but I encountered an error: LLM API error: " +:+ e
    ∧ Message.tokens_used a = 0
    ∧ Message.model_used a = None
    ∧ Db.messages db' = (Db.messages db ++ [a])%list.
Proof.
  intros H. rewrite generate_response_call, H. cbv zeta.
  eexists _, _. split; [reflexivity|]. by repeat split.
Qed.

Lemma generate_response_failure_witness :
  ∃ (db' : Db.t) (a : Message.t),
    _generate_response (init Sample.failing_provider) Sample.pets_db 0 1
      "cat DOG" "rag" = (db', a)
    ∧ Message.role a = "assistant"
    ∧ Message.conversation_id a = 1
    ∧ Message.content a
      = "I apologize, but I encountered an error: LLM API error: "
        +:+ "connection refused"
    ∧ Message.tokens_used a = 0
    ∧ Message.model_used a = None
    ∧ Db.messages db' = (Db.messages Sample.pets_db ++ [a])%list.
Proof.
  apply (generate_response_failure (init Sample.failing_provider)
           Sample.pets_db 0 1 "cat DOG" "rag" "connection refused").
  reflexivity.
Defined.

(** C1, at the creation of a conversation with the first message
    "Hello" in an empty store.  When [_generate_response] is called the
    user message has been stored; it is loaded with the history and then
    appended again, so the provider is sent the user text twice. *)
Theorem create_conversation_repeats_user_message (c : LLMService.provider) :
  let self := init c in
  ∃ (db : Db.t) (conversation : Conversation.t),
    create_conversation_rows Db.empty 0 1 Sample.greeting
    = inr (db, conversation)
    ∧ Conversation.id conversation = 1
    ∧ Db.messages db = [user_row Db.empty 0 1 "Hello"]
    ∧ sent_to_provider self db 1 "Hello" "open"
      = [Truncation.user "Hello"; Truncation.user "Hello"]
    ∧ count_user_entries "Hello" (sent_to_provider self db 1 "Hello" "open")
      = 2%nat.
Proof.
  intros self. eexists _, _. split; [vm_compute; reflexivity|].
  vm_compute. repeat split; reflexivity.
Qed.

(** C3, as the code has it.  The budget of the truncation is the
    maximum context window less the maximum response length, 30720
    tokens.  The truncator is applied to the stored history and the new
    user entry; the system prompt is no part of that list.  When there
    is a system prompt, its entry is put in front of the truncated
    history afterwards, in the provider call, so its cost is not counted
    against the budget. *)
Theorem generate_response_budget
    (c : LLMService.provider) (db : Db.t) (now conversation_id : Z)
    (user_message mode : string) :
  let self := init c in
  let budget :=
    LLMService.max_context_tokens (llm_service self)
    - LLMService.max_tokens (llm_service self) in
  let history :=
    LLMService.truncate_messages
      (untruncated_history db conversation_id user_message) budget true in
  budget = 30720
  ∧ message_history self db conversation_id user_message = history
  ∧ sent_to_provider self db conversation_id user_message mode
    = match system_prompt_for db conversation_id user_message mode with
      | Some p => Truncation.system p :: history
      | None => history
      end
  ∧ _generate_response self db now conversation_id user_message mode
    = let response :=
        match c "llama-3.1-8b-instant"
                (sent_to_provider self db conversation_id user_message mode)
                2048 with
        | inr (text, total) =>
            {| LLMService.content := text;
               LLMService.tokens_used := total;
               LLMService.model_used := Some "llama-3.1-8b-instant" |}
        | inl e => fallback ("LLM API error: " +:+ e)
        end in
      (Db.add_message (assistant_row db now conversation_id response) db,
       assistant_row db now conversation_id response).
Proof.
  intros self budget history. split; [reflexivity|]. split; [reflexivity|].
  split; [|apply generate_response_call].
  unfold sent_to_provider, LLMService.chat_messages.
  destruct (system_prompt_for db conversation_id user_message mode) as [p|] eqn:E;
    [|reflexivity].
  by rewrite (system_prompt_truthy _ _ _ _ _ E).
Qed.

(** C3 as stated fails.  A RAG conversation is linked to a document with
    one long chunk, and the user asks "cat dog bird fish".  The system
    entry costs 30716 tokens and the two user entries 4 each, 30724 in
    all, above the budget of 30720: a truncator applied to the history
    with the system entry in front would have to drop an entry.  But the
    truncator is given the two user entries only, keeps both, and all
    three entries are sent. *)
Lemma system_prompt_not_budgeted :
  let self := init Sample.failing_provider in
  let db := with_user_message Sample.manual_db 0 1 "cat dog bird fish" in
  let sent := sent_to_provider self db 1 "cat dog bird fish" "rag" in
  system_prompt_for db 1 "cat dog bird fish" "rag" ≠ None
  ∧ untruncated_history db 1 "cat dog bird fish"
    = [Truncation.user "cat dog bird fish"; Truncation.user "cat dog bird fish"]
  ∧ map LLMService.is_system sent = [true; false; false]
  ∧ map Truncation.cost sent = [30716; 4; 4]
  ∧ max_context self = 30720
  ∧ sent = history_with_system db 1 "cat dog bird fish" "rag"
  ∧ untruncated_history db 1 "cat dog bird fish"
    ≠ history_with_system db 1 "cat dog bird fish" "rag"
  ∧ length (LLMService.truncate_messages
              (history_with_system db 1 "cat dog bird fish" "rag")
              (max_context self) true) = 2%nat.
Proof.
  cbv zeta.
  split.
  { assert (match system_prompt_for
                    (with_user_message Sample.manual_db 0 1 "cat dog bird fish")
                    1 "cat dog bird fish" "rag" with
            | Some _ => true
            | None => false
            end = true) as H by (vm_compute; reflexivity).
    intros E. rewrite E in H. discriminate H. }
  split; [vm_compute; reflexivity|].
  split; [vm_compute; reflexivity|].
  split; [vm_compute; reflexivity|].
  split; [vm_compute; reflexivity|].
  split.
  { apply sent_within_budget. apply Z.leb_le. vm_compute. reflexivity. }
  split; [|vm_compute; reflexivity].
  assert (length (history_with_system
                    (with_user_message Sample.manual_db 0 1 "cat dog bird fish")
                    1 "cat dog bird fish" "rag") = 3%nat) as H
    by (vm_compute; reflexivity).
  intros E. rewrite <- E in H. revert H.
  assert (length (untruncated_history
                    (with_user_message Sample.manual_db 0 1 "cat dog bird fish")
                    1 "cat dog bird fish") = 2%nat) as ->
    by (vm_compute; reflexivity).
  discriminate.
Qed.




(** Of the keys 2, 7 and 1 the second is not the key of a document: the
    conversation is created with links to the documents 2 and 1. *)
Example create_conversation_sample :
  ∃ (db' : Db.t) (conversation : Conversation.t),
    create_conversation (init Sample.failing_provider) Sample.library 0 1
      {| first_message := "cat DOG"; mode := "rag";
         document_ids := Some [2; 7; 1] |} = inr (db', conversation)
    ∧ links_of db' 1 = [2; 1].
Proof. eexists _, _. split; vm_compute; reflexivity. Qed.
End GenerationProperties.


(** * Further properties *)

(** ** The truncation as a whole *)

Module TruncationLaws.
Import LLMService Truncation TruncationFacts.

Lemma total_cost_app (l1 l2 : list message) :
  total_cost (l1 ++ l2) = total_cost l1 + total_cost l2.
Proof.
  unfold total_cost. induction l1 as [|m l1 IH]; simpl; [done|].
  rewrite IH. lia.
Qed.

Lemma total_cost_rev (l : list message) : total_cost (rev l) = total_cost l.
Proof.
  induction l as [|m l IH]; [done|].
  simpl rev. rewrite total_cost_app, IH. unfold total_cost. simpl. lia.
Qed.

(** What the walk from the most recent entry takes: a front part of the
    entries in walking order that fits, cut at the first entry that does
    not. *)
Lemma suffix_scan_takes max_tokens recent kept total :
  ∃ taken left,
    recent = (taken ++ left)%list
    ∧ suffix_scan max_tokens recent kept total = (rev taken ++ kept)%list
    ∧ (taken = [] ∨ total + total_cost taken <= max_tokens)
    ∧ (∀ d, head left = Some d → max_tokens < total + total_cost taken + cost d).
Proof.
  revert kept total. induction recent as [|m recent IH]; intros kept total.
  - exists [], []. repeat split; [by left | done].
  - simpl. destruct (Z.leb_spec (total + cost m) max_tokens) as [Hfit|Hover].
    + destruct (IH (m :: kept) (total + cost m))
        as (taken & left & -> & E & Hbound & Hnext).
      exists (m :: taken), left. split; [done|]. split.
      { rewrite E. simpl. by rewrite <- app_assoc. }
      split.
      * right. change (m :: taken) with ([m] ++ taken)%list.
        rewrite total_cost_app.
        change (total_cost [m]) with (cost m + 0).
        destruct Hbound as [-> | H]; [unfold total_cost; simpl; lia | lia].
      * intros d Hd. specialize (Hnext d Hd).
        change (m :: taken) with ([m] ++ taken)%list.
        rewrite total_cost_app. change (total_cost [m]) with (cost m + 0). lia.
    + exists [], (m :: recent). repeat split; [by left|].
      intros d [= <-]. unfold total_cost. simpl. lia.
Qed.

(** The shape of the result over budget when the system entry is kept. *)
Lemma over_budget_system_shape first rest max_tokens :
  is_system first = true →
  max_tokens < total_cost (first :: rest) →
  ∃ dropped kept,
    rest = (dropped ++ kept)%list
    ∧ truncate_messages (first :: rest) max_tokens true
      = (kept ++ [first])%list
    ∧ (kept = [] ∨ cost first + total_cost kept <= max_tokens)
    ∧ (∀ d, last dropped = Some d →
            max_tokens < cost first + total_cost kept + cost d).
Proof.
  intros Hs Hover.
  rewrite (truncate_over_budget_system _ _ _ Hs Hover).
  destruct (suffix_scan_takes max_tokens (rev rest) [] (cost first))
    as (taken & left & E & -> & Hbound & Hnext).
  exists (rev left), (rev taken). rewrite app_nil_r.
  split.
  { rewrite <- rev_app_distr, <- E. by rewrite rev_involutive. }
  split; [done|]. rewrite total_cost_rev. split.
  - destruct Hbound as [-> | H]; [by left | by right].
  - intros d Hd. apply Hnext. destruct left as [|x left]; [done|].
    simpl in Hd. rewrite last_snoc in Hd. by simplify_eq.
Qed.
End TruncationLaws.

Section TruncationTheorems.
Import LLMService Truncation TruncationFacts TruncationLaws.

(** X1. The token estimate is the length divided by four, rounded down:
    it is never negative, four times the estimate does not exceed the
    length, and the length is less than four more than that. *)
Theorem estimate_tokens_bounds (text : string) :
  0 <= estimate_tokens text
  ∧ 4 * estimate_tokens text <= Z.of_nat (String.length text)
  ∧ Z.of_nat (String.length text) < 4 * estimate_tokens text + 4.
Proof.
  unfold estimate_tokens, PyStr.len.
  pose proof (Z.div_mod (Z.of_nat (String.length text)) 4 ltac:(lia)) as Hdiv.
  pose proof (Z.mod_pos_bound (Z.of_nat (String.length text)) 4 ltac:(lia)).
  split; [apply Z.div_pos; lia | lia].
Qed.

(** X2. Over budget, when no system entry is kept (the list does not
    start with one, or [keep_system] is off), [truncate_messages]
    returns the empty list, whatever the budget and the entries. *)
Theorem truncate_messages_over_budget_empty
    (messages : list message) (max_tokens : Z) (keep_system : bool) :
  max_tokens < total_cost messages →
  (∀ first, head messages = Some first →
            is_system first = false ∨ keep_system = false) →
  truncate_messages messages max_tokens keep_system = [].
Proof.
  intros Hover Hhead. destruct messages as [|first rest]; [done|].
  apply truncate_over_budget_no_system; [|exact Hover].
  destruct (Hhead first eq_refl) as [-> | ->]; [done|].
  apply andb_false_r.
Qed.

Lemma truncate_messages_over_budget_empty_witness :
  truncate_messages [user "aaaaaaaa"; user "bbbb"; user "cccc"] 3 true = [].
Proof.
  apply truncate_messages_over_budget_empty.
  - apply Z.ltb_lt. vm_compute. reflexivity.
  - intros first [= <-]. left. vm_compute. reflexivity.
Defined.

(** X3. Over budget with a leading system entry, the result is a final
    segment of the other entries, in their order, followed by the system
    entry.  The kept segment and the system entry fit the budget
    together (unless nothing is kept), and the segment cannot be
    extended: the entry just before it would not fit. *)
Theorem truncate_messages_over_budget_system
    (first : message) (rest : list message) (max_tokens : Z) :
  is_system first = true →
  max_tokens < total_cost (first :: rest) →
  ∃ dropped kept,
    rest = (dropped ++ kept)%list
    ∧ truncate_messages (first :: rest) max_tokens true
      = (kept ++ [first])%list
    ∧ (kept = [] ∨ cost first + total_cost kept <= max_tokens)
    ∧ (∀ d, last dropped = Some d →
            max_tokens < cost first + total_cost kept + cost d).
Proof. apply over_budget_system_shape. Qed.

Lemma truncate_messages_over_budget_system_witness :
  ∃ dropped kept,
    [user "aaaa"; user "bbbb"; user "cccc"] = (dropped ++ kept)%list
    ∧ truncate_messages
        [system "Be brief."; user "aaaa"; user "bbbb"; user "cccc"] 4 true
      = (kept ++ [system "Be brief."])%list.
Proof.
  destruct (truncate_messages_over_budget_system (system "Be brief.")
              [user "aaaa"; user "bbbb"; user "cccc"] 4)
    as (dropped & kept & Hrest & Hresult & _).
  - vm_compute. reflexivity.
  - apply Z.ltb_lt. vm_compute. reflexivity.
  - exists dropped, kept. by split.
Defined.

(** X4. Truncation never invents or repeats an entry: the result is a
    sub-multiset of the input, so it is no longer than the input. *)
Theorem truncate_messages_submseteq
    (messages : list message) (max_tokens : Z) (keep_system : bool) :
  truncate_messages messages max_tokens keep_system ⊆+ messages
  ∧ (length (truncate_messages messages max_tokens keep_system)
     <= length messages)%nat.
Proof.
  assert (truncate_messages messages max_tokens keep_system ⊆+ messages) as H.
  { destruct (Z.le_gt_cases (total_cost messages) max_tokens) as [Hfit|Hover].
    { by rewrite truncate_within_budget. }
    destruct messages as [|first rest]; [done|].
    destruct (is_system first && keep_system) eqn:Hs.
    - apply andb_true_iff in Hs as [Hs ->].
      destruct (over_budget_system_shape first rest max_tokens Hs Hover)
        as (dropped & kept & -> & -> & _).
      rewrite <- (Permutation_cons_append kept first).
      apply submseteq_skip, submseteq_inserts_l. done.
    - rewrite truncate_over_budget_no_system by done.
      apply submseteq_nil_l. }
  split; [exact H | by apply submseteq_length].
Qed.

(** X5. For a budget that is not negative, the result fits the budget,
    except when a kept system entry alone exceeds it. *)
Theorem truncate_messages_fits
    (messages : list message) (max_tokens : Z) (keep_system : bool) :
  0 <= max_tokens →
  (∀ first, head messages = Some first →
            is_system first && keep_system = true →
            cost first <= max_tokens) →
  total_cost (truncate_messages messages max_tokens keep_system) <= max_tokens.
Proof.
  intros Hpos Hsys.
  destruct (Z.le_gt_cases (total_cost messages) max_tokens) as [Hfit|Hover].
  { by rewrite truncate_within_budget. }
  destruct messages as [|first rest]; [done|].
  destruct (is_system first && keep_system) eqn:Hs.
  - specialize (Hsys first eq_refl Hs).
    apply andb_true_iff in Hs as [Hs ->].
    destruct (over_budget_system_shape first rest max_tokens Hs Hover)
      as (dropped & kept & _ & -> & Hbound & _).
    rewrite total_cost_app.
    change (total_cost [first]) with (cost first + 0).
    destruct Hbound as [-> | H]; [unfold total_cost; simpl; lia | lia].
  - rewrite truncate_over_budget_no_system by done. exact Hpos.
Qed.

Lemma truncate_messages_fits_witness :
  total_cost (truncate_messages
                [system "Be brief."; user "aaaa"; user "bbbb"; user "cccc"]
                4 true) <= 4.
Proof.
  apply truncate_messages_fits.
  - lia.
  - intros first [= <-] _. apply Z.leb_le. vm_compute. reflexivity.
Defined.

(** X6. Truncating twice is truncating once. *)
Theorem truncate_messages_idempotent
    (messages : list message) (max_tokens : Z) (keep_system : bool) :
  truncate_messages (truncate_messages messages max_tokens keep_system)
    max_tokens keep_system
  = truncate_messages messages max_tokens keep_system.
Proof.
  destruct (Z.le_gt_cases (total_cost messages) max_tokens) as [Hfit|Hover].
  { by rewrite !(truncate_within_budget messages max_tokens keep_system Hfit). }
  destruct messages as [|first rest]; [done|].
  destruct (is_system first && keep_system) eqn:Hs.
  - apply andb_true_iff in Hs as [Hs ->].
    destruct (over_budget_system_shape first rest max_tokens Hs Hover)
      as (dropped & kept & _ & -> & Hbound & _).
    destruct Hbound as [-> | H].
    + simpl app.
      destruct (Z.le_gt_cases (total_cost [first]) max_tokens) as [Hf|Ho].
      * by rewrite truncate_within_budget.
      * rewrite (truncate_over_budget_system _ _ _ Hs Ho). reflexivity.
    + apply truncate_within_budget. rewrite total_cost_app.
      change (total_cost [first]) with (cost first + 0). lia.
  - by rewrite truncate_over_budget_no_system.
Qed.
End TruncationTheorems.


(** ** Retrieval on any store *)

Module RetrievalLaws.
Import RAGService Retrieval RetrievalFacts Text.

Lemma lower_char_space (c : ascii) :
  PyStr.is_space c = true → PyStr.lower_char c = c.
Proof. by destruct c as [[] [] [] [] [] [] [] []]. Qed.

Lemma lower_blank (s : string) : blank s = true → PyStr.lower s = s.
Proof.
  unfold blank, chars. induction s as [|c s IH]; [done|].
  simpl. intros [Hc Hs]%andb_true_iff.
  by rewrite (lower_char_space c Hc), (IH Hs).
Qed.

Lemma split_blank (s : string) : blank s = true → PyStr.split s = [].
Proof.
  unfold blank, chars, PyStr.split. induction s as [|c s IH]; [done|].
  simpl. intros [Hc Hs]%andb_true_iff. rewrite Hc. simpl. by apply IH.
Qed.

Lemma words_blank (s : string) : blank s = true → words s = ∅.
Proof.
  intros H. unfold words. by rewrite (lower_blank s H), (split_blank s H).
Qed.

Lemma overlap_empty (b : gset string) : overlap ∅ b = 0.
Proof.
  unfold overlap. by rewrite (left_absorb_L ∅ (∩) b), size_empty.
Qed.

(** A document gives candidates only if it shares a word with the
    query: in a stored chunk, or, without chunks, in its content. *)
Lemma doc_candidates_nonempty query top_k doc :
  doc_candidates (words query) top_k doc ≠ [] →
  (∃ chunk, chunk ∈ default [] (Document.chunks doc)
            ∧ 0 < relevance query (get_text chunk))
  ∨ (∃ content, Document.content doc = Some content
                ∧ 0 < relevance query content).
Proof.
  unfold doc_candidates.
  destruct (Document.chunks doc) as [[|c cs]|] eqn:Hch.
  - destruct (Document.content doc) as [content|]; [|done].
    destruct (PyStr.truthy content); [|done].
    unfold content_candidates. fold (words content).
    fold (relevance query content).
    destruct (Z.ltb_spec 0 (relevance query content)); [|done].
    intros _. right. by exists content.
  - intros H. left.
    assert (map text (chunk_candidates (words query) (Document.filename doc)
                        (c :: cs)) ≠ []) as Htexts.
    { destruct (chunk_candidates _ _ _); [done | discriminate]. }
    rewrite chunk_candidates_texts in Htexts.
    destruct (filter _ (map get_text (c :: cs))) as [|t ts] eqn:E; [done|].
    assert (t ∈ filter (λ t, 0 < relevance query t) (map get_text (c :: cs)))
      as Hin by (rewrite E; left).
    apply list_elem_of_filter in Hin as [Hpos Hin].
    apply list_elem_of_fmap in Hin as (chunk & -> & Hchunk).
    exists chunk. split; [exact Hchunk | exact Hpos].
  - destruct (Document.content doc) as [content|]; [|done].
    destruct (PyStr.truthy content); [|done].
    unfold content_candidates. fold (words content).
    fold (relevance query content).
    destruct (Z.ltb_spec 0 (relevance query content)); [|done].
    intros _. right. by exists content.
Qed.

Lemma flat_map_nonempty {A B} (f : A → list B) (l : list A) :
  flat_map f l ≠ [] → ∃ x, x ∈ l ∧ f x ≠ [].
Proof.
  induction l as [|x l IH]; [done|]. simpl.
  destruct (f x) as [|y ys] eqn:E.
  - intros H. destruct (IH H) as (z & Hz & Hfz). exists z. split; [by right|done].
  - intros _. exists x. split; [by left | by rewrite E].
Qed.

Lemma slice_to_nil {A} (k : Z) : PyList.slice_to k (@nil A) = [].
Proof. unfold PyList.slice_to. by rewrite take_nil. Qed.

(** The result is empty, or the conversation is a stored RAG
    conversation and the result is the ranking of its documents. *)
Lemma retrieve_cases db conversation_id user_query top_k :
  retrieve_relevant_chunks db conversation_id user_query top_k = []
  ∨ ∃ conversation,
      Db.first (λ c, Conversation.id c =? conversation_id)
               (Db.conversations db) = Some conversation
      ∧ Conversation.mode conversation = "rag"
      ∧ retrieve_relevant_chunks db conversation_id user_query top_k
        = map text (rank (linked_documents db conversation_id)
                         user_query top_k).
Proof.
  destruct (Db.first (λ c, Conversation.id c =? conversation_id)
                     (Db.conversations db)) as [conversation|] eqn:Hc.
  - destruct (String.eqb_spec (Conversation.mode conversation) "rag") as [Hm|Hm].
    + right. exists conversation. split; [done|]. split; [done|].
      by apply (retrieve_rag db conversation_id conversation).
    + left. unfold retrieve_relevant_chunks. rewrite Hc.
      apply String.eqb_neq in Hm. by rewrite Hm.
  - left. unfold retrieve_relevant_chunks. by rewrite Hc.
Qed.
End RetrievalLaws.

Section RetrievalTheorems.
Import RAGService Retrieval RetrievalFacts RetrievalLaws Text.

(** X7. On any store, with stored chunks, raw content or both among the
    linked documents, a retrieval with a count [top_k] that is not
    negative returns at most [top_k] texts. *)
Theorem retrieve_relevant_chunks_at_most
    (db : Db.t) (conversation_id : Z) (user_query : string) (top_k : Z) :
  0 <= top_k →
  Z.of_nat (length (retrieve_relevant_chunks db conversation_id
                      user_query top_k)) <= top_k.
Proof.
  intros Hk.
  destruct (retrieve_cases db conversation_id user_query top_k)
    as [-> | (conversation & _ & _ & ->)]; [simpl; lia|].
  rewrite length_map. unfold rank. by apply slice_to_length.
Qed.

Lemma retrieve_relevant_chunks_at_most_witness :
  Z.of_nat (length (retrieve_relevant_chunks Sample.pets_db 1 "a dog" 1)) <= 1.
Proof. apply retrieve_relevant_chunks_at_most. lia. Defined.

(** X8. A query without a word, empty or of white space only, retrieves
    nothing, whatever the store holds. *)
Theorem retrieve_relevant_chunks_blank_query
    (db : Db.t) (conversation_id : Z) (user_query : string) (top_k : Z) :
  blank user_query = true →
  retrieve_relevant_chunks db conversation_id user_query top_k = [].
Proof.
  intros Hblank.
  destruct (retrieve_cases db conversation_id user_query top_k)
    as [E | (conversation & _ & _ & E)]; [exact E|].
  rewrite E. unfold rank. fold (words user_query).
  destruct (flat_map (doc_candidates (words user_query) top_k)
              (linked_documents db conversation_id)) as [|x xs] eqn:Hrel.
  { simpl. by rewrite slice_to_nil. }
  exfalso.
  destruct (flat_map_nonempty (doc_candidates (words user_query) top_k)
              (linked_documents db conversation_id)) as (doc & _ & Hdoc).
  { by rewrite Hrel. }
  assert (∀ t, relevance user_query t = 0) as Hzero.
  { intros t. unfold relevance. rewrite (words_blank _ Hblank).
    apply overlap_empty. }
  destruct (doc_candidates_nonempty _ _ _ Hdoc)
    as [(chunk & _ & Hpos) | (content & _ & Hpos)];
    rewrite Hzero in Hpos; lia.
Qed.

Lemma retrieve_relevant_chunks_blank_query_witness :
  retrieve_relevant_chunks Sample.pets_db 1 "   " 3 = [].
Proof.
  apply retrieve_relevant_chunks_blank_query. vm_compute. reflexivity.
Defined.

(** X9. A retrieval returns a text only if the conversation is stored
    and in RAG mode, and a stored document linked to it shares a word
    with the query, in one of its chunks or in its content. *)
Theorem retrieve_relevant_chunks_nonempty
    (db : Db.t) (conversation_id : Z) (user_query : string) (top_k : Z) :
  retrieve_relevant_chunks db conversation_id user_query top_k ≠ [] →
  ∃ conversation doc,
    Db.first (λ c, Conversation.id c =? conversation_id)
             (Db.conversations db) = Some conversation
    ∧ Conversation.mode conversation = "rag"
    ∧ doc ∈ Db.documents db
    ∧ Document.id doc ∈ Generation.links_of db conversation_id
    ∧ ((∃ chunk, chunk ∈ default [] (Document.chunks doc)
                 ∧ 0 < relevance user_query (get_text chunk))
       ∨ (∃ content, Document.content doc = Some content
                     ∧ 0 < relevance user_query content)).
Proof.
  intros Hne.
  destruct (retrieve_cases db conversation_id user_query top_k)
    as [E | (conversation & Hc & Hm & E)]; [done|].
  rewrite E in Hne. unfold rank in Hne. fold (words user_query) in Hne.
  destruct (flat_map (doc_candidates (words user_query) top_k)
              (linked_documents db conversation_id)) as [|x xs] eqn:Hrel.
  { simpl in Hne. by rewrite slice_to_nil in Hne. }
  destruct (flat_map_nonempty (doc_candidates (words user_query) top_k)
              (linked_documents db conversation_id)) as (doc & Hin & Hdoc).
  { by rewrite Hrel. }
  exists conversation, doc. split; [exact Hc|]. split; [exact Hm|].
  apply list_elem_of_filter in Hin as [Hlinked Hstored].
  split; [exact Hstored|]. split; [exact Hlinked|].
  by apply doc_candidates_nonempty in Hdoc.
Qed.

Lemma retrieve_relevant_chunks_nonempty_witness :
  ∃ conversation doc,
    Db.first (λ c, Conversation.id c =? 1) (Db.conversations Sample.pets_db)
      = Some conversation
    ∧ Conversation.mode conversation = "rag"
    ∧ doc ∈ Db.documents Sample.pets_db.
Proof.
  destruct (retrieve_relevant_chunks_nonempty Sample.pets_db 1 "cat DOG" 3)
    as (conversation & doc & Hc & Hm & Hdoc & _).
  - vm_compute. discriminate.
  - by exists conversation, doc.
Defined.
End RetrievalTheorems.


(** ** The context and the system prompt *)

Module ContextLaws.
Import RAGService.

Lemma prefix_append (a b : string) : String.prefix a (a +:+ b) = true.
Proof.
  induction a as [|c a IH]; [by destruct b|].
  change (String c a +:+ b) with (String c (a +:+ b)). simpl.
  destruct (ascii_dec c c); [exact IH | done].
Qed.

Lemma format_context_cons (chunk : string) (chunks : list string) :
  format_context (chunk :: chunks)
  = preamble +:+ PyStr.concat (map item (enumerate 1 (chunk :: chunks))).
Proof. unfold format_context. apply foldl_items. Qed.

Lemma format_context_truthy (chunks : list string) :
  PyStr.truthy (format_context chunks)
  = match chunks with [] => false | _ => true end.
Proof.
  destruct chunks as [|chunk chunks]; [done|].
  by rewrite format_context_cons.
Qed.
End ContextLaws.

Section ContextTheorems.
Import RAGService ConversationService ContextLaws.

(** X10. The context is the empty string exactly when nothing was
    retrieved, and a system prompt is built exactly in RAG mode with a
    retrieval that is not empty; the prompt then is the instruction text
    followed by the context, which starts with the preamble. *)
Theorem system_prompt_when_retrieved
    (db : Db.t) (conversation_id : Z) (user_message mode : string) :
  (construct_rag_context db conversation_id user_message = ""
   ↔ retrieve_relevant_chunks db conversation_id user_message 3 = [])
  ∧ (system_prompt_for db conversation_id user_message mode = None
     ↔ (mode ≠ "rag"
        ∨ retrieve_relevant_chunks db conversation_id user_message 3 = []))
  ∧ (∀ p, system_prompt_for db conversation_id user_message mode = Some p →
          p = instruction
              +:+ construct_rag_context db conversation_id user_message
          ∧ String.prefix (instruction +:+ preamble) p = true).
Proof.
  unfold system_prompt_for, construct_rag_context.
  generalize (retrieve_relevant_chunks db conversation_id user_message 3).
  intros chunks.
  pose proof (format_context_truthy chunks) as Ht.
  split; [|split].
  - destruct chunks as [|c cs]; [done|].
    rewrite format_context_cons. split; [|done]. intros H. discriminate H.
  - destruct (String.eqb_spec mode "rag") as [Hm|Hm].
    + rewrite Ht. destruct chunks as [|c cs].
      * split; [by right | done].
      * split; [done|]. intros [H|H]; [done | discriminate H].
    + split; [by left | done].
  - intros p. destruct (String.eqb_spec mode "rag") as [Hm|Hm]; [|done].
    rewrite Ht. destruct chunks as [|c cs]; [done|].
    intros E.
    assert (p = instruction +:+ format_context (c :: cs)) as -> by congruence.
    split; [done|].
    rewrite format_context_cons.
    rewrite <- append_assoc. apply prefix_append.
Qed.

Lemma system_prompt_when_retrieved_witness :
  system_prompt_for Sample.pets_db 1 "   " "rag" = None.
Proof.
  apply (proj1 (proj2 (system_prompt_when_retrieved
                         Sample.pets_db 1 "   " "rag"))).
  right. vm_compute. reflexivity.
Defined.
End ContextTheorems.


(** ** Creating conversations and adding messages *)

Module GenerationLaws.
Import ConversationService Generation GenerationFacts.

Lemma max_ids_app (l1 l2 : list Z) :
  foldr Z.max 0 (l1 ++ l2) = Z.max (foldr Z.max 0 l1) (foldr Z.max 0 l2).
Proof.
  induction l1 as [|x l1 IH]; simpl.
  - assert (0 <= foldr Z.max 0 l2) by (induction l2; simpl; lia). lia.
  - rewrite IH. lia.
Qed.

Lemma next_id_next (ids : list Z) :
  Db.next_id (ids ++ [Db.next_id ids]) = Db.next_id ids + 1.
Proof.
  unfold Db.next_id. rewrite max_ids_app. simpl.
  assert (0 <= foldr Z.max 0 ids) by (induction ids; simpl; lia). lia.
Qed.

(** Without RAG mode or without a listed key no key is looked up. *)
Lemma requested_none (data : ConversationCreate) :
  mode data ≠ "rag" ∨ document_ids data = None ∨ document_ids data = Some [] →
  requested data = [].
Proof.
  unfold requested. intros [H | [-> | ->]].
  - apply String.eqb_neq in H. by rewrite H.
  - by destruct (String.eqb (mode data) "rag").
  - by destruct (String.eqb (mode data) "rag").
Qed.

Lemma take_length (k : nat) (s : string) :
  String.length (PyStr.take k s) = Nat.min k (String.length s).
Proof.
  revert s. induction k as [|k IH]; intros [|c s]; simpl; try done.
  by rewrite IH.
Qed.

Lemma append_length (a b : string) :
  String.length (a +:+ b) = (String.length a + String.length b)%nat.
Proof.
  induction a as [|c a IH]; [done|].
  change (String c a +:+ b) with (String c (a +:+ b)). simpl. by rewrite IH.
Qed.

Lemma take_prefix (k : nat) (s : string) :
  String.prefix (PyStr.take k s) s = true.
Proof.
  revert s. induction k as [|k IH]; intros [|c s]; simpl; try done.
  destruct (ascii_dec c c); [apply IH | done].
Qed.
End GenerationLaws.


Section GenerationTheorems.
Import ConversationService Generation GenerationFacts GenerationLaws.

(** X11. When the provider returns a text and a token count, the reply
    generation stores an assistant message with that text as content,
    that count as tokens consumed and the default model as model
    identifier. *)
Theorem generate_response_success
    (self : t) (db : Db.t) (now conversation_id : Z)
    (user_message mode text : string) (total : Z) :
  LLMService.client (llm_service self)
    (LLMService.default_model (llm_service self))
    (sent_to_provider self db conversation_id user_message mode)
    (LLMService.max_tokens (llm_service self)) = inr (text, total) →
  ∃ (db' : Db.t) (a : Message.t),
    _generate_response self db now conversation_id user_message mode = (db', a)
    ∧ Message.role a = "assistant"
    ∧ Message.conversation_id a = conversation_id
    ∧ Message.content a = text
    ∧ Message.tokens_used a = total
    ∧ Message.model_used a
      = Some (LLMService.default_model (llm_service self))
    ∧ Db.messages db' = (Db.messages db ++ [a])%list.
Proof.
  intros H. rewrite generate_response_call, H. cbv zeta.
  eexists _, _. split; [reflexivity|]. by repeat split.
Qed.

Lemma generate_response_success_witness :
  ∃ (db' : Db.t) (a : Message.t),
    _generate_response (init Fixtures.friendly_provider) Fixtures.chat_db 5 1
      "Hello" "open" = (db', a)
    ∧ Message.content a = "Hi there"
    ∧ Message.tokens_used a = 42
    ∧ Message.model_used a = Some "llama-3.1-8b-instant".
Proof.
  destruct (generate_response_success (init Fixtures.friendly_provider)
              Fixtures.chat_db 5 1 "Hello" "open" "Hi there" 42)
    as (db' & a & E & _ & _ & Hc & Ht & Hm & _).
  - reflexivity.
  - exists db', a. by repeat split.
Defined.

(** X12. [add_message] on a stored conversation returns the new user
    message and appends exactly two rows to the messages, the user
    message and then an assistant message, both of that conversation
    and with fresh, consecutive keys; the other tables are unchanged. *)
Theorem add_message_appends
    (self : t) (db : Db.t) (now conversation_id : Z) (content : string)
    (conversation : Conversation.t) :
  get_conversation db conversation_id = inr (Some conversation) →
  ∃ (db' : Db.t) (u a : Message.t),
    add_message self db now conversation_id content = inr (db', u)
    ∧ Db.messages db' = (Db.messages db ++ [u; a])%list
    ∧ Message.role u = "user"
    ∧ Message.content u = content
    ∧ Message.conversation_id u = conversation_id
    ∧ Message.role a = "assistant"
    ∧ Message.conversation_id a = conversation_id
    ∧ Forall (λ m, Message.id m < Message.id u) (Db.messages db)
    ∧ Message.id a = Message.id u + 1
    ∧ Db.conversations db' = Db.conversations db
    ∧ Db.documents db' = Db.documents db
    ∧ Db.conversation_documents db' = Db.conversation_documents db.
Proof.
  intros Hc. unfold get_conversation in Hc. unfold add_message. rewrite Hc.
  set (u := user_row db now conversation_id content).
  destruct (generate_response_tables self (Db.add_message u db) now
              conversation_id content (Conversation.mode conversation))
    as (a & -> & Hrole & Hconv & Hid).
  exists (Db.add_message a (Db.add_message u db)), u, a.
  split; [reflexivity|]. simpl. rewrite <- app_assoc. simpl.
  repeat split; try done.
  - pose proof (next_id_above (map Message.id (Db.messages db))) as H.
    by apply Forall_fmap in H.
  - rewrite Hid. simpl. rewrite map_app. simpl. apply next_id_next.
Qed.

Lemma add_message_appends_witness :
  ∃ (db' : Db.t) (u a : Message.t),
    add_message (init Fixtures.friendly_provider) Fixtures.chat_db 5 1
      "And then?" = inr (db', u)
    ∧ Db.messages db' = (Db.messages Fixtures.chat_db ++ [u; a])%list
    ∧ Message.content u = "And then?".
Proof.
  destruct (add_message_appends (init Fixtures.friendly_provider)
              Fixtures.chat_db 5 1 "And then?"
              {| Conversation.id := 1; Conversation.user_id := 1;
                 Conversation.title := Some "Hello";
                 Conversation.mode := "open" |})
    as (db' & u & a & E & Hm & _ & Hc & _).
  - reflexivity.
  - by exists db', u, a.
Defined.

(** X13. [add_message] fails in two cases and in no other.  For a key
    out of the range of the store the lookup raises the [OverflowError]
    of the driver.  For a key in range that no conversation has, the
    service raises a [ValueError] with the message "Conversation not
    found". *)
Theorem add_message_not_found
    (self : t) (db : Db.t) (now conversation_id : Z) (content : string) :
  (Db.in_range conversation_id = false →
   add_message self db now conversation_id content = inl Db.too_large)
  ∧ (get_conversation db conversation_id = inr None →
     add_message self db now conversation_id content
     = inl (PyExn.ValueError "Conversation not found"))
  ∧ (∀ e, add_message self db now conversation_id content = inl e →
          (Db.in_range conversation_id = false ∧ e = Db.too_large)
          ∨ (get_conversation db conversation_id = inr None
             ∧ e = PyExn.ValueError "Conversation not found")).
Proof.
  unfold add_message, get_conversation.
  destruct (Db.first_by Conversation.id conversation_id (Db.conversations db))
    as [e0|[conversation|]] eqn:Hfirst.
  - apply first_by_raises in Hfirst as [Hrange ->].
    split; [done|]. split; [done|]. intros e [= <-]. by left.
  - apply first_by_returns in Hfirst as [Hrange _].
    split; [congruence|]. split; [done|]. intros e.
    by destruct (_generate_response _ _ _ _ _ _).
  - apply first_by_returns in Hfirst as [Hrange _].
    split; [congruence|]. split; [done|]. intros e [= <-]. by right.
Qed.

Lemma add_message_not_found_witness :
  add_message (init Fixtures.friendly_provider) Fixtures.chat_db 5 9 "Hello"
  = inl (PyExn.ValueError "Conversation not found")
  ∧ add_message (init Fixtures.friendly_provider) Fixtures.chat_db 5
      Sample.beyond "Hello"
    = inl (PyExn.OverflowError
             "Python int too large to convert to SQLite INTEGER").
Proof.
  split.
  - apply (proj1 (proj2 (add_message_not_found
                           (init Fixtures.friendly_provider)
                           Fixtures.chat_db 5 9 "Hello"))).
    reflexivity.
  - apply (proj1 (add_message_not_found (init Fixtures.friendly_provider)
                    Fixtures.chat_db 5 Sample.beyond "Hello")).
    reflexivity.
Defined.



(** X15. Links are created in RAG mode only, and only from a list of
    keys that is not empty: otherwise [create_conversation] returns and
    leaves the link table as it is. *)
Theorem create_conversation_no_links
    (self : t) (db : Db.t) (now user_id : Z) (data : ConversationCreate) :
  mode data ≠ "rag" ∨ document_ids data = None ∨ document_ids data = Some [] →
  ∃ (db' : Db.t) (conversation : Conversation.t),
    create_conversation self db now user_id data = inr (db', conversation)
    ∧ Db.conversation_documents db' = Db.conversation_documents db.
Proof.
  intros H. apply requested_none in H.
  assert (keys_in_range data) as Hkeys.
  { unfold keys_in_range. rewrite H. constructor. }
  destruct (create_conversation_returns self db now user_id data Hkeys)
    as (db' & new & a & Hcreate & _ & _ & _ & _ & _ & Hadded & _ & Hnew).
  exists db', (new_conversation db user_id data). split; [exact Hcreate|].
  rewrite H in Hnew. destruct new; [|discriminate Hnew].
  by rewrite Hadded, app_nil_r.
Qed.

Lemma create_conversation_no_links_witness :
  ∃ (db' : Db.t) (conversation : Conversation.t),
    create_conversation (init Fixtures.friendly_provider) Sample.library 0 1
      {| first_message := "cat DOG"; mode := "open";
         document_ids := Some [2; 1] |} = inr (db', conversation)
    ∧ Db.conversation_documents db'
      = Db.conversation_documents Sample.library.
Proof.
  apply create_conversation_no_links. left. discriminate.
Defined.

(** X16. The title of a new conversation is the first message when that
    has at most 50 characters, and its first 50 characters followed by
    three periods otherwise: a title has at most 53 characters. *)
Theorem new_conversation_title
    (db : Db.t) (user_id : Z) (data : ConversationCreate) :
  ∃ title,
    Conversation.title (new_conversation db user_id data) = Some title
    ∧ (String.length title <= 53)%nat
    ∧ ((String.length (first_message data) <= 50)%nat →
       title = first_message data)
    ∧ ((50 < String.length (first_message data))%nat →
       ∃ front, title = front +:+ "..."
                ∧ String.length front = 50%nat
                ∧ String.prefix front (first_message data) = true).
Proof.
  unfold new_conversation. cbn [Conversation.title].
  eexists. split; [reflexivity|].
  unfold PyStr.len.
  destruct (Z.ltb_spec 50 (Z.of_nat (String.length (first_message data))))
    as [Hlong|Hshort].
  - pose proof (take_length 50 (first_message data)) as Hlen.
    split.
    { rewrite append_length, Hlen.
      change (String.length "...") with 3%nat. lia. }
    split; [lia|]. intros _. exists (PyStr.take 50 (first_message data)).
    split; [done|]. split; [lia | apply take_prefix].
  - split; [lia|]. split; [done | lia].
Qed.

Lemma new_conversation_title_witness :
  ∃ title,
    Conversation.title (new_conversation Db.empty 1 Sample.greeting)
    = Some title
    ∧ title = "Hello".
Proof.
  destruct (new_conversation_title Db.empty 1 Sample.greeting)
    as (title & E & _ & Hshort & _).
  exists title. split; [exact E|]. apply Hshort. simpl. lia.
Defined.

(** X17. In a store without system rows, a history over the budget is
    not sent at all: the truncation returns the empty list, and the
    provider is called with the system prompt alone, or with no message,
    and not with the new user message. *)
Theorem generate_response_over_budget
    (self : t) (db : Db.t) (conversation_id : Z) (user_message mode : string) :
  Forall (λ m, Message.role m ≠ "system") (Db.messages db) →
  max_context self
  < Truncation.total_cost
      (untruncated_history db conversation_id user_message) →
  message_history self db conversation_id user_message = []
  ∧ sent_to_provider self db conversation_id user_message mode
    = match system_prompt_for db conversation_id user_message mode with
      | Some p => [Truncation.system p]
      | None => []
      end.
Proof.
  intros Hroles Hover.
  assert (message_history self db conversation_id user_message = []) as E.
  { unfold message_history. revert Hover. unfold untruncated_history.
    assert (Forall (λ m, Message.role m ≠ "system")
                   (conversation_messages db conversation_id)) as Hall.
    { unfold conversation_messages. rewrite sort_desc_perm.
      apply Forall_forall. intros m [_ Hm]%list_elem_of_filter.
      rewrite Forall_forall in Hroles. by apply Hroles. }
    destruct (conversation_messages db conversation_id) as [|m ms].
    - simpl map. simpl app. intros Hover.
      apply TruncationFacts.truncate_over_budget_no_system; [|exact Hover].
      by rewrite is_system_role.
    - apply Forall_cons in Hall as [Hm _].
      rewrite map_cons, <- app_comm_cons. intros Hover.
      apply TruncationFacts.truncate_over_budget_no_system; [|exact Hover].
      by rewrite is_system_role. }
  split; [exact E|].
  unfold sent_to_provider. rewrite E. unfold LLMService.chat_messages.
  destruct (system_prompt_for db conversation_id user_message mode)
    as [p|] eqn:Hp; [|done].
  by rewrite (system_prompt_truthy _ _ _ _ _ Hp).
Qed.

Lemma generate_response_over_budget_witness :
  message_history (init Fixtures.friendly_provider) Fixtures.long_db 1 "Hello"
  = [].
Proof.
  apply (proj1 (generate_response_over_budget
                  (init Fixtures.friendly_provider) Fixtures.long_db 1
                  "Hello" "open"
                  ltac:(repeat constructor; discriminate)
                  ltac:(apply Z.ltb_lt; vm_compute; reflexivity))).
Defined.
End GenerationTheorems.


(** ** Looking up and deleting conversations; the default user *)

Module StoreLaws.
Import ConversationService Generation GenerationFacts Integrity.

Section Filters.
Context {A : Type}.
Variables (P Q : A → Prop).
Context `{!∀ x, Decision (P x)} `{!∀ x, Decision (Q x)}.

Lemma filter_filter_keep (l : list A) :
  (∀ x, P x → Q x) → filter P (filter Q l) = filter P l.
Proof.
  intros HPQ. induction l as [|x l IH]; [done|].
  rewrite !filter_cons. destruct (decide (Q x)) as [Hq|Hq].
  - rewrite filter_cons. by rewrite IH.
  - rewrite IH. destruct (decide (P x)) as [Hp|Hp]; [|done].
    by destruct (Hq (HPQ x Hp)).
Qed.

Lemma filter_filter_none (l : list A) :
  (∀ x, P x → ¬ Q x) → filter P (filter Q l) = [].
Proof.
  intros HPQ. apply filter_none. apply Forall_forall.
  intros x [Hq _]%list_elem_of_filter Hp. by apply (HPQ x).
Qed.
End Filters.

Lemma first_true {A} (p : A → bool) (rows : list A) (r : A) :
  Db.first p rows = Some r → p r = true ∧ r ∈ rows.
Proof.
  unfold Db.first. intros H.
  assert (r ∈ filter (λ r, p r = true) rows) as Hin.
  { destruct (filter _ rows) as [|x xs]; simplify_eq/=. left. }
  by apply list_elem_of_filter in Hin.
Qed.

(** The tables after the deletion of a stored conversation. *)
Lemma delete_found db conversation_id conversation :
  get_conversation db conversation_id = inr (Some conversation) →
  delete_conversation db conversation_id
  = inr ({| Db.conversations :=
              filter (λ c, Conversation.id c ≠ conversation_id)
                     (Db.conversations db);
            Db.messages :=
              filter (λ m, Message.conversation_id m ≠ conversation_id)
                     (Db.messages db);
            Db.documents := Db.documents db;
            Db.conversation_documents :=
              filter (λ l, ConversationDocument.conversation_id l
                           ≠ conversation_id)
                     (Db.conversation_documents db) |}, true).
Proof.
  unfold get_conversation, delete_conversation. intros H. rewrite H.
  apply first_by_returns in H as [_ H].
  apply first_true in H as [Hid%Z.eqb_eq _]. by rewrite Hid.
Qed.

Lemma get_after_filter db_conversations conversation_id other :
  Db.first (λ c, Conversation.id c =? other)
           (filter (λ c, Conversation.id c ≠ conversation_id) db_conversations)
  = if decide (other = conversation_id) then None
    else Db.first (λ c, Conversation.id c =? other) db_conversations.
Proof.
  unfold Db.first. case_decide as Hother.
  - rewrite filter_filter_none; [done|].
    intros c Hc%Z.eqb_eq Hne. lia.
  - rewrite filter_filter_keep; [done|].
    intros c Hc%Z.eqb_eq. lia.
Qed.
End StoreLaws.

Section StoreTheorems.
Import ConversationService Generation GenerationFacts GenerationLaws.
Import Integrity StoreLaws.

(** X18. Deleting a stored conversation succeeds and removes the
    conversation with its messages and its document links: afterwards
    it is not found, it has no message and no link, and nothing is
    retrieved for it.  The documents stay, and so does everything that
    belongs to another conversation. *)
Theorem delete_conversation_cascade
    (db : Db.t) (conversation_id : Z) (conversation : Conversation.t) :
  get_conversation db conversation_id = inr (Some conversation) →
  ∃ db',
    delete_conversation db conversation_id = inr (db', true)
    ∧ get_conversation db' conversation_id = inr None
    ∧ conversation_messages db' conversation_id = []
    ∧ links_of db' conversation_id = []
    ∧ (∀ user_query top_k,
         RAGService.retrieve_relevant_chunks db' conversation_id
           user_query top_k = [])
    ∧ Db.documents db' = Db.documents db
    ∧ (∀ other, other ≠ conversation_id →
         get_conversation db' other = get_conversation db other
         ∧ conversation_messages db' other = conversation_messages db other
         ∧ links_of db' other = links_of db other).
Proof.
  intros Hfound. rewrite (delete_found _ _ _ Hfound).
  apply first_by_returns in Hfound as [Hrange _].
  eexists. split; [reflexivity|].
  assert (∀ other,
            Db.first (λ c, Conversation.id c =? other)
              (filter (λ c, Conversation.id c ≠ conversation_id)
                      (Db.conversations db))
            = if decide (other = conversation_id) then None
              else Db.first (λ c, Conversation.id c =? other)
                     (Db.conversations db)) as Hget.
  { intros other. apply get_after_filter. }
  split.
  { unfold get_conversation. rewrite (first_by_in_range _ _ _ Hrange).
    cbn [Db.conversations]. rewrite Hget. by rewrite decide_True. }
  split.
  { unfold conversation_messages. simpl.
    rewrite filter_filter_none; [done|]. intros m Hm Hne. done. }
  split.
  { unfold links_of. simpl.
    rewrite filter_filter_none; [done|]. intros l Hl Hne. done. }
  split.
  { intros user_query top_k. unfold RAGService.retrieve_relevant_chunks.
    simpl. rewrite Hget. by rewrite decide_True. }
  split; [done|].
  intros other Hother. split; [|split].
  - unfold get_conversation, Db.first_by.
    destruct (Db.in_range other); [|done].
    cbn [Db.conversations]. rewrite Hget. by rewrite decide_False.
  - unfold conversation_messages. simpl.
    rewrite filter_filter_keep; [done|]. intros m Hm. congruence.
  - unfold links_of. simpl.
    rewrite filter_filter_keep; [done|]. intros l Hl. congruence.
Qed.

Lemma delete_conversation_cascade_witness :
  ∃ db',
    delete_conversation Sample.pets_db 1 = inr (db', true)
    ∧ get_conversation db' 1 = inr None
    ∧ links_of db' 1 = [].
Proof.
  destruct (delete_conversation_cascade Sample.pets_db 1
              Sample.rag_conversation)
    as (db' & E & Hget & _ & Hlinks & _).
  - reflexivity.
  - by exists db'.
Defined.

(** X19. [delete_conversation] raises in one case only, for a key out
    of the range of the store, with the [OverflowError] of the driver.
    For a key in range it returns false exactly when no conversation
    has the key, and then the store is unchanged.  After a deletion
    that returned, a second deletion of the same key returns false and
    changes nothing. *)
Theorem delete_conversation_missing (db : Db.t) (conversation_id : Z) :
  (Db.in_range conversation_id = false →
   delete_conversation db conversation_id = inl Db.too_large)
  ∧ (∀ e, delete_conversation db conversation_id = inl e →
          Db.in_range conversation_id = false ∧ e = Db.too_large)
  ∧ (get_conversation db conversation_id = inr None →
     delete_conversation db conversation_id = inr (db, false))
  ∧ (∀ db', delete_conversation db conversation_id = inr (db', false) →
            get_conversation db conversation_id = inr None ∧ db' = db)
  ∧ (∀ db' success,
       delete_conversation db conversation_id = inr (db', success) →
       delete_conversation db' conversation_id = inr (db', false)).
Proof.
  assert (get_conversation db conversation_id = inr None →
          delete_conversation db conversation_id = inr (db, false)) as Hnone.
  { unfold get_conversation, delete_conversation. by intros ->. }
  split.
  { intros H. unfold delete_conversation.
    by rewrite (first_by_out_of_range _ _ _ H). }
  split.
  { intros e. unfold delete_conversation.
    destruct (Db.first_by Conversation.id conversation_id (Db.conversations db))
      as [e0|[conversation|]] eqn:Hfirst; [|done..].
    intros [= <-]. by apply first_by_raises in Hfirst. }
  split; [exact Hnone|]. split.
  { intros db'. unfold get_conversation, delete_conversation.
    destruct (Db.first_by Conversation.id conversation_id (Db.conversations db))
      as [e0|[conversation|]]; [done..|].
    by intros [= <-]. }
  intros db' success.
  destruct (get_conversation db conversation_id) as [e|[conversation|]] eqn:Hget.
  - unfold get_conversation in Hget. unfold delete_conversation at 1.
    by rewrite Hget.
  - rewrite (delete_found _ _ _ Hget). intros [= <- <-].
    apply first_by_returns in Hget as [Hrange _].
    unfold delete_conversation. rewrite (first_by_in_range _ _ _ Hrange).
    cbn [Db.conversations]. rewrite get_after_filter.
    by rewrite decide_True.
  - rewrite (Hnone eq_refl). intros [= <- <-]. by apply Hnone.
Qed.

Lemma delete_conversation_missing_witness :
  delete_conversation Sample.pets_db 9 = inr (Sample.pets_db, false)
  ∧ delete_conversation Sample.pets_db Sample.beyond
    = inl (PyExn.OverflowError
             "Python int too large to convert to SQLite INTEGER").
Proof.
  split.
  - apply (proj1 (proj2 (proj2 (delete_conversation_missing
                                  Sample.pets_db 9)))).
    reflexivity.
  - apply (proj1 (delete_conversation_missing Sample.pets_db Sample.beyond)).
    reflexivity.
Defined.



(** X21. [get_or_create_user] returns a user of the given name that is
    in the resulting table, keeps the users there were, adds at most
    one, and keeps the names distinct; a second call returns the same
    user and changes nothing. *)
Theorem get_or_create_user_idempotent
    (users : list User.t) (username : string) :
  ∃ users' user,
    get_or_create_user users username = (users', user)
    ∧ User.username user = username
    ∧ user ∈ users'
    ∧ (users' = users ∨ users' = (users ++ [user])%list)
    ∧ (NoDup (map User.username users) → NoDup (map User.username users'))
    ∧ get_or_create_user users' username = (users', user).
Proof.
  unfold get_or_create_user.
  destruct (Db.first (λ u, String.eqb (User.username u) username) users)
    as [user|] eqn:Hfirst.
  - destruct (first_true _ _ _ Hfirst) as [Hname%String.eqb_eq Hin].
    exists users, user. rewrite Hfirst. repeat split; try done. by left.
  - set (user := {| User.id := Db.next_id (map User.id users);
                    User.username := username; User.email := None |}).
    assert (existsb (λ u, String.eqb (User.username u) username) users = false)
      as Hnone.
    { destruct (existsb _ users) eqn:E; [|done].
      destruct (first_found _ _ E) as [u Hu]. congruence. }
    exists (users ++ [user])%list, user.
    split; [done|]. split; [done|].
    split; [apply elem_of_app; right; left|].
    split; [by right|]. split.
    + intros Hnodup. rewrite map_app. simpl.
      apply NoDup_app. split; [exact Hnodup|]. split; [|apply NoDup_singleton].
      intros name Hname ->%list_elem_of_singleton.
      apply list_elem_of_fmap in Hname as (u & Hu & Hin).
      assert (existsb (λ u, String.eqb (User.username u) username) users = true)
        as Hex; [|congruence].
      apply existsb_exists. exists u. split; [by apply list_elem_of_In|].
      rewrite <- Hu. apply String.eqb_refl.
    + rewrite (first_appended _ users user Hnone (String.eqb_refl username)).
      reflexivity.
Qed.

Lemma get_or_create_user_idempotent_witness :
  ∃ users' user,
    get_or_create_user [] "default" = (users', user)
    ∧ NoDup (map User.username users').
Proof.
  destruct (get_or_create_user_idempotent [] "default")
    as (users' & user & E & _ & _ & _ & Hnodup & _).
  exists users', user. split; [exact E|]. apply Hnodup. constructor.
Defined.
End StoreTheorems.


(** ** Chunking a document *)

Module TextLaws.
Import Text.

Lemma rev_app_append (a b : string) :
  String.rev_app a b = String.rev_app a "" +:+ b.
Proof.
  revert b. induction a as [|c a IH]; intros b; [done|].
  simpl. rewrite (IH (String c b)), (IH (String c "")).
  by rewrite append_assoc.
Qed.

Lemma rev_cons (c : ascii) (a : string) :
  String.rev (String c a) = String.rev a +:+ String c "".
Proof. unfold String.rev. simpl. apply rev_app_append. Qed.

Lemma rev_append (a b : string) :
  String.rev (a +:+ b) = String.rev b +:+ String.rev a.
Proof.
  induction a as [|c a IH].
  - by rewrite append_empty_r.
  - change (String c a +:+ b) with (String c (a +:+ b)).
    by rewrite !rev_cons, IH, append_assoc.
Qed.

Lemma rev_involutive (a : string) : String.rev (String.rev a) = a.
Proof.
  induction a as [|c a IH]; [done|].
  by rewrite rev_cons, rev_append, IH.
Qed.

Lemma lstrip_solid (s : string) : starts_solid s → PyStr.lstrip s = s.
Proof. destruct s as [|c s]; [done|]. simpl. by intros ->. Qed.

Lemma lstrip_starts (s : string) :
  PyStr.lstrip s ≠ "" → starts_solid (PyStr.lstrip s).
Proof.
  induction s as [|c s IH]; [done|]. simpl.
  destruct (PyStr.is_space c) eqn:Hc; [exact IH | by intros _].
Qed.

(** Stripping on the left removes a blank front part. *)
Lemma lstrip_front (s : string) :
  ∃ b, blank b = true ∧ s = b +:+ PyStr.lstrip s.
Proof.
  induction s as [|c s IH]; [by exists ""|]. simpl.
  destruct (PyStr.is_space c) eqn:Hc; [|by exists ""].
  destruct IH as (b & Hb & E). exists (String c b). split.
  - unfold blank, chars in *. simpl. by rewrite Hc.
  - change (String c b +:+ PyStr.lstrip s) with (String c (b +:+ PyStr.lstrip s)).
    by rewrite <- E.
Qed.

Lemma lstrip_blank_front (b s : string) :
  blank b = true → PyStr.lstrip (b +:+ s) = PyStr.lstrip s.
Proof.
  unfold blank, chars. induction b as [|c b IH]; [done|].
  simpl. intros [Hc Hb]%andb_true_iff.
  change (String c b +:+ s) with (String c (b +:+ s)). simpl.
  rewrite Hc. by apply IH.
Qed.

Lemma blank_rev (b : string) : blank b = true → blank (String.rev b) = true.
Proof.
  induction b as [|c b IH]; [done|].
  unfold blank, chars in *. simpl. intros [Hc Hb]%andb_true_iff.
  rewrite rev_cons. specialize (IH Hb).
  revert IH. generalize (String.rev b). intros r.
  induction r as [|d r IHr]; simpl.
  - intros _. by rewrite Hc.
  - intros [Hd Hr]%andb_true_iff.
    change (String d r +:+ String c "") with (String d (r +:+ String c "")).
    simpl. rewrite Hd. by apply IHr.
Qed.

Lemma starts_solid_append (a b : string) :
  starts_solid a → starts_solid (a +:+ b).
Proof. by destruct a. Qed.

Lemma starts_solid_front (a b : string) :
  a ≠ "" → starts_solid (a +:+ b) → starts_solid a.
Proof. by destruct a. Qed.

(** A string that starts and ends with a character other than white
    space is what stripping leaves of it, with white space after it. *)
Lemma strip_padded (x w : string) :
  starts_solid x → starts_solid (String.rev x) → blank w = true →
  PyStr.strip (x +:+ w) = x.
Proof.
  intros Hx Hrx Hw. unfold PyStr.strip.
  rewrite (lstrip_solid (x +:+ w)) by by apply starts_solid_append.
  rewrite rev_append, lstrip_blank_front by by apply blank_rev.
  rewrite (lstrip_solid _ Hrx). apply rev_involutive.
Qed.

(** What stripping leaves, if anything, starts and ends with a character
    other than white space. *)
Lemma strip_solid (s : string) :
  PyStr.strip s ≠ "" →
  starts_solid (PyStr.strip s) ∧ starts_solid (String.rev (PyStr.strip s)).
Proof.
  unfold PyStr.strip.
  set (y := PyStr.lstrip (String.rev (PyStr.lstrip s))).
  intros Hne.
  assert (y ≠ "") as Hy by (intros E; by rewrite E in Hne).
  split; [|rewrite rev_involutive; by apply lstrip_starts].
  destruct (lstrip_front (String.rev (PyStr.lstrip s))) as (b & Hb & E).
  fold y in E.
  assert (PyStr.lstrip s = String.rev y +:+ String.rev b) as Hs.
  { rewrite <- rev_append, <- E. by rewrite rev_involutive. }
  assert (PyStr.lstrip s ≠ "") as Hls.
  { rewrite Hs. intros H. apply Hne. by destruct (String.rev y). }
  apply lstrip_starts in Hls. rewrite Hs in Hls.
  by apply starts_solid_front in Hls.
Qed.

Lemma strip_blank (s : string) : blank s = true → PyStr.strip s = "".
Proof.
  intros H. unfold PyStr.strip.
  assert (PyStr.lstrip s = "") as ->; [|done].
  unfold blank, chars in H. induction s as [|c s IH]; [done|].
  simpl in *. apply andb_true_iff in H as [Hc Hs]. rewrite Hc. by apply IH.
Qed.
End TextLaws.


Module ChunkLaws.
Import RAGService Text TextLaws Chunking.

Lemma truthy_nonempty (s : string) : PyStr.truthy s = true ↔ s ≠ "".
Proof. by destruct s. Qed.

Lemma concat_app (l1 l2 : list string) :
  PyStr.concat (l1 ++ l2) = PyStr.concat l1 +:+ PyStr.concat l2.
Proof.
  unfold PyStr.concat. induction l1 as [|x l1 IH]; [done|].
  simpl. by rewrite IH, append_assoc.
Qed.

Lemma get_text_singleton (x : string) : get_text {["text" := x]} = x.
Proof. unfold get_text. by rewrite lookup_singleton_eq. Qed.

Lemma period_solid (a : string) : starts_solid (String.rev (a +:+ ".")).
Proof. by rewrite rev_append. Qed.

(** The current chunk, when it is not empty, is a well formed text and
    one space, and stripping it gives that text. *)
Lemma flush_current chunk_size known current_chunk :
  good_current chunk_size known current_chunk →
  current_chunk ≠ "" →
  good_chunk chunk_size known {["text" := PyStr.strip current_chunk]}
  ∧ PyStr.strip current_chunk +:+ " " = current_chunk.
Proof.
  intros [-> | (x & -> & Hx)] Hne; [done|].
  destruct Hx as (Hstart & (a & Ha) & Hsize).
  assert (PyStr.strip (x +:+ " ") = x) as ->.
  { apply strip_padded; [done| |done]. rewrite Ha. apply period_solid. }
  split; [|done]. exists x. split; [done|]. split; [done|].
  split; [by exists a | done].
Qed.

Lemma joined_snoc chunks x :
  joined (chunks ++ [ {["text" := x]} ]) = joined chunks +:+ (x +:+ " ").
Proof.
  unfold joined. rewrite map_app, concat_app. simpl.
  by rewrite get_text_singleton, append_empty_r.
Qed.

(** The invariant of the loop. *)
Lemma chunk_loop_good chunk_size known sentences chunks current_chunk :
  (∀ s, s ∈ sentences → PyStr.strip s ≠ "" → PyStr.strip s ∈ known) →
  Forall (good_chunk chunk_size known) chunks →
  good_current chunk_size known current_chunk →
  Forall (good_chunk chunk_size known)
         (chunk_loop chunk_size sentences chunks current_chunk).1
  ∧ good_current chunk_size known
      (chunk_loop chunk_size sentences chunks current_chunk).2
  ∧ joined (chunk_loop chunk_size sentences chunks current_chunk).1
    +:+ (chunk_loop chunk_size sentences chunks current_chunk).2
    = joined chunks +:+ current_chunk
      +:+ spoken (filter (λ s, s ≠ "") (map PyStr.strip sentences)).
Proof.
  revert chunks current_chunk.
  induction sentences as [|sentence rest IH]; intros chunks cur Hknown Hchunks Hcur.
  { simpl. split; [done|]. split; [done|].
    unfold spoken, PyStr.concat. simpl. by rewrite append_empty_r. }
  assert (∀ s, s ∈ rest → PyStr.strip s ≠ "" → PyStr.strip s ∈ known) as Hrest.
  { intros s Hs. apply Hknown. by right. }
  cbn [chunk_loop]. rewrite map_cons, filter_cons.
  destruct (PyStr.truthy (PyStr.strip sentence)) eqn:Ht.
  2:{ assert (PyStr.strip sentence = "") as E by by destruct (PyStr.strip sentence).
      rewrite decide_False by (intros H; by apply H).
      simpl negb. cbv iota. by apply IH. }
  apply truthy_nonempty in Ht.
  rewrite decide_True by exact Ht. simpl negb. cbv iota.
  destruct (strip_solid sentence Ht) as [Hs1 Hs2].
  set (s := PyStr.strip sentence) in *.
  assert (spoken (s :: filter (λ s, s ≠ "") (map PyStr.strip rest))
          = (s +:+ ". ")
            +:+ spoken (filter (λ s, s ≠ "") (map PyStr.strip rest))) as Hspoken
    by reflexivity.
  rewrite Hspoken.
  destruct (Z.ltb_spec (PyStr.len cur + PyStr.len s) chunk_size) as [Hfit|Hfull].
  - (* the sentence joins the current chunk *)
    assert (good_current chunk_size known (cur +:+ (s +:+ ". "))) as Hcur'.
    { right. exists (cur +:+ (s +:+ ".")). split.
      { by rewrite !append_assoc. }
      split.
      { destruct Hcur as [-> | (x & -> & Hx & _)].
        - change (starts_solid (s +:+ ".")). by apply starts_solid_append.
        - rewrite append_assoc. by apply starts_solid_append. }
      split.
      { exists (cur +:+ s). by rewrite append_assoc. }
      left. unfold PyStr.len in *.
      rewrite !GenerationLaws.append_length.
      change (String.length ".") with 1%nat. lia. }
    destruct (IH chunks (cur +:+ (s +:+ ". ")) Hrest Hchunks Hcur')
      as (H1 & H2 & H3).
    split; [exact H1|]. split; [exact H2|].
    rewrite H3. by rewrite !append_assoc.
  - (* the current chunk is closed and the sentence starts a new one *)
    assert (good_current chunk_size known (s +:+ ". ")) as Hcur'.
    { right. exists (s +:+ "."). split.
      { by rewrite append_assoc. }
      split; [by apply starts_solid_append|].
      split; [by exists s|].
      right. exists s. split; [|done].
      apply Hknown; [by left | exact Ht]. }
    destruct (PyStr.truthy cur) eqn:Htc.
    + apply truthy_nonempty in Htc.
      destruct (flush_current _ _ _ Hcur Htc) as [Hgood Hstrip].
      assert (Forall (good_chunk chunk_size known)
                     (chunks ++ [ {["text" := PyStr.strip cur]} ])) as Hchunks'.
      { apply Forall_app. split; [done|]. by constructor. }
      destruct (IH _ (s +:+ ". ") Hrest Hchunks' Hcur') as (H1 & H2 & H3).
      split; [exact H1|]. split; [exact H2|].
      rewrite H3, joined_snoc, Hstrip. by rewrite !append_assoc.
    + assert (cur = "") as -> by by destruct cur.
      destruct (IH chunks (s +:+ ". ") Hrest Hchunks Hcur') as (H1 & H2 & H3).
      split; [exact H1|]. split; [exact H2|]. exact H3.
Qed.

(** [chunk_document] as a whole. *)
Lemma chunk_document_good content chunk_size :
  Forall (good_chunk chunk_size (sentences content))
         (chunk_document content chunk_size)
  ∧ joined (chunk_document content chunk_size) = spoken (sentences content).
Proof.
  unfold chunk_document.
  destruct (chunk_loop_good chunk_size (sentences content)
              (PyStr.split_on "." content) [] "") as (H1 & H2 & H3).
  { intros s Hs Hne. unfold sentences. apply list_elem_of_filter.
    split; [exact Hne|]. apply list_elem_of_fmap. by exists s. }
  { constructor. }
  { by left. }
  fold (sentences content) in H3.
  destruct (chunk_loop chunk_size (PyStr.split_on "." content) [] "")
    as [chunks cur]. simpl in *.
  change (joined [] +:+ "" +:+ spoken (sentences content))
    with (spoken (sentences content)) in H3.
  destruct (PyStr.truthy cur) eqn:Htc.
  - apply truthy_nonempty in Htc.
    destruct (flush_current _ _ _ H2 Htc) as [Hgood Hstrip].
    split.
    + apply Forall_app. split; [done|]. by constructor.
    + by rewrite joined_snoc, Hstrip.
  - assert (cur = "") as -> by by destruct cur.
    split; [done|]. by rewrite append_empty_r in H3.
Qed.

Lemma well_formed_facts chunk_size known x :
  well_formed chunk_size known x →
  x ≠ "" ∧ PyStr.strip x = x.
Proof.
  intros (Hstart & (a & Ha) & _). split; [by destruct x|].
  rewrite <- (append_empty_r x) at 1.
  apply strip_padded; [done| |done]. rewrite Ha. apply period_solid.
Qed.

(** Pieces cut from a string of periods and white space are blank. *)
Lemma split_on_blank (cur s : string) :
  blank cur = true → no_sentence s = true →
  Forall (λ piece, blank piece = true) (PyStr.split_on_go "." cur s).
Proof.
  revert cur. unfold no_sentence, chars.
  induction s as [|c s IH]; intros cur Hcur; simpl.
  - intros _. constructor; [by apply blank_rev | constructor].
  - intros [Hc Hs]%andb_true_iff.
    destruct (Ascii.eqb c ".") eqn:Hdot.
    + constructor; [by apply blank_rev | by apply IH].
    + apply IH; [|exact Hs]. unfold blank, chars in *. simpl.
      simpl in Hc. by rewrite Hc.
Qed.

Lemma sentences_none (content : string) :
  no_sentence content = true → sentences content = [].
Proof.
  intros H. unfold sentences. apply filter_none.
  apply Forall_fmap. unfold PyStr.split_on.
  eapply Forall_impl; [by apply split_on_blank|].
  intros piece Hpiece Hne. simpl in Hne. by rewrite strip_blank in Hne.
Qed.
End ChunkLaws.

Section ChunkTheorems.
Import RAGService Text TextLaws Chunking ChunkLaws.

(** X22. Every chunk of [chunk_document] is a dict with the one key
    "text"; its text is not empty, ends with a period and has no white
    space at either end. *)
Theorem chunk_document_shape
    (content : string) (chunk_size : Z) (chunk : Document.chunk) :
  chunk ∈ chunk_document content chunk_size →
  ∃ t, chunk = {["text" := t]}
       ∧ t ≠ ""
       ∧ (∃ a, t = a +:+ ".")
       ∧ PyStr.strip t = t.
Proof.
  intros Hin.
  destruct (chunk_document_good content chunk_size) as [Hall _].
  rewrite Forall_forall in Hall.
  destruct (Hall chunk Hin) as (x & -> & Hx).
  destruct (well_formed_facts _ _ _ Hx) as [Hne Hstrip].
  exists x. destruct Hx as (_ & Hdot & _). by repeat split.
Qed.

Lemma chunk_document_shape_witness :
  ∃ t, ({["text" := "One. Two."]} : Document.chunk) = {["text" := t]}
       ∧ t ≠ ""
       ∧ (∃ a, t = a +:+ ".")
       ∧ PyStr.strip t = t.
Proof.
  apply (chunk_document_shape " One.  Two .. " 500).
  vm_compute. left.
Defined.

(** X23. A chunk text has at most [chunk_size] characters, unless it is
    a single sentence of the content followed by a period. *)
Theorem chunk_document_size
    (content : string) (chunk_size : Z) (chunk : Document.chunk) :
  chunk ∈ chunk_document content chunk_size →
  PyStr.len (get_text chunk) <= chunk_size
  ∨ ∃ s, s ∈ sentences content ∧ get_text chunk = s +:+ ".".
Proof.
  intros Hin.
  destruct (chunk_document_good content chunk_size) as [Hall _].
  rewrite Forall_forall in Hall.
  destruct (Hall chunk Hin) as (x & -> & _ & _ & Hsize).
  by rewrite get_text_singleton.
Qed.

Lemma chunk_document_size_witness :
  PyStr.len (get_text {["text" := "One. Two."]}) <= 12
  ∨ ∃ s, s ∈ sentences "One. Two. Three is a long one"
         ∧ get_text {["text" := "One. Two."]} = s +:+ ".".
Proof.
  apply (chunk_document_size "One. Two. Three is a long one" 12).
  vm_compute. left.
Defined.

(** X24. No sentence is lost, repeated or moved: the chunk texts, a
    space after each, concatenate to the sentences of the content, a
    period and a space after each.  So there is no chunk exactly when
    the content has no sentence. *)
Theorem chunk_document_keeps_sentences (content : string) (chunk_size : Z) :
  joined (chunk_document content chunk_size) = spoken (sentences content)
  ∧ (chunk_document content chunk_size = [] ↔ sentences content = []).
Proof.
  destruct (chunk_document_good content chunk_size) as [Hall Hjoin].
  split; [exact Hjoin|]. split.
  - intros E. rewrite E in Hjoin.
    destruct (sentences content) as [|s l] eqn:Hs; [done|].
    assert (s ≠ "") as Hne.
    { assert (s ∈ sentences content) as Hin by (rewrite Hs; left).
      unfold sentences in Hin. by apply list_elem_of_filter in Hin as [? _]. }
    destruct s; [done | discriminate Hjoin].
  - intros E. rewrite E in Hjoin.
    destruct (chunk_document content chunk_size) as [|chunk chunks]; [done|].
    apply Forall_cons in Hall as [(x & -> & Hx) _].
    destruct (well_formed_facts _ _ _ Hx) as [Hne _].
    unfold joined in Hjoin. simpl in Hjoin.
    rewrite get_text_singleton in Hjoin.
    destruct x; [done | discriminate Hjoin].
Qed.

Lemma chunk_document_keeps_sentences_witness :
  chunk_document "" 500 = [].
Proof.
  apply (proj2 (chunk_document_keeps_sentences "" 500)). reflexivity.
Defined.

(** X25. A content of periods and white space only, the empty content
    included, gives no chunk. *)
Theorem chunk_document_no_sentence (content : string) (chunk_size : Z) :
  no_sentence content = true →
  chunk_document content chunk_size = [].
Proof.
  intros H.
  destruct (chunk_document_good content chunk_size) as [Hall Hjoin].
  rewrite (sentences_none content H) in Hjoin.
  destruct (chunk_document content chunk_size) as [|chunk chunks]; [done|].
  apply Forall_cons in Hall as [(x & -> & Hx) _].
  destruct (well_formed_facts _ _ _ Hx) as [Hne _].
  unfold joined in Hjoin. simpl in Hjoin.
  rewrite get_text_singleton in Hjoin.
  destruct x; [done | discriminate Hjoin].
Qed.

Lemma chunk_document_no_sentence_witness :
  chunk_document " . .. " 500 = [].
Proof. apply chunk_document_no_sentence. vm_compute. reflexivity. Defined.

Example chunk_document_sample :
  chunk_document "One. Two. Three is a long one" 12
  = [ {["text" := "One. Two."]}; {["text" := "Three is a long one."]} ].
Proof. vm_compute. reflexivity. Qed.
End ChunkTheorems.


(** ** The endpoints *)

Module RouterLaws.
Import ConversationService Generation GenerationFacts GenerationLaws.
Import Integrity StoreLaws.


End RouterLaws.

Section RouterTheorems.
Import ConversationService Generation GenerationFacts GenerationLaws.
Import Integrity StoreLaws RouterLaws.
Variable http_exception_str : Z → string → string.
Variable self : ConversationService.t.



(** X28. [PUT /conversations/{id}] answers 404 with "Conversation not
    found" and stores nothing when the key is in the range of the store
    and the conversation is missing; 500, with the text of the driver's
    error in the detail, and stores nothing when the key is out of
    range; and otherwise 200 with the stored user message, whose content
    is the message sent. *)
Theorem update_endpoint
    (db : Db.t) (now conversation_id : Z) (message : string) :
  (get_conversation db conversation_id = inr None →
   Router.update_conversation http_exception_str self db now conversation_id
     message
   = (db, Router.HTTPException 404 "Conversation not found"))
  ∧ (Db.in_range conversation_id = false →
     Router.update_conversation http_exception_str self db now conversation_id
       message
     = (db, Router.HTTPException 500
              ("Internal server error: "
               +:+ "Python int too large to convert to SQLite INTEGER")))
  ∧ (∀ conversation,
       get_conversation db conversation_id = inr (Some conversation) →
       ∃ db' u,
         Router.update_conversation http_exception_str self db now
           conversation_id message
         = (db', Router.Response 200 u)
         ∧ u ∈ Db.messages db'
         ∧ Message.role u = "user"
         ∧ Message.content u = message
         ∧ Message.conversation_id u = conversation_id).
Proof.
  unfold get_conversation, Router.update_conversation, add_message.
  split; [by intros ->|]. split.
  - intros H. by rewrite (first_by_out_of_range _ _ _ H).
  - intros conversation ->.
    destruct (generate_response_tables self
                (Db.add_message
                   (user_row db now conversation_id message) db)
                now conversation_id message (Conversation.mode conversation))
      as (a & -> & _).
    eexists _, _. split; [reflexivity|]. split; [|done].
    simpl. rewrite <- app_assoc. apply elem_of_app. right. left.
Qed.

(** X29. [DELETE /conversations/{id}] answers 404 and changes nothing
    when the key is in the range of the store and the conversation is
    missing.  For a stored conversation it answers 204, and a [GET] of
    the same key then answers 404.  For a key out of range the
    [OverflowError] of the driver leaves both endpoints uncaught, which
    the framework answers with 500, and nothing changes. *)
Theorem delete_endpoint (db : Db.t) (conversation_id : Z) :
  (get_conversation db conversation_id = inr None →
   Router.delete_conversation db conversation_id
   = (db, Router.HTTPException 404 "Conversation not found"))
  ∧ (∀ conversation,
       get_conversation db conversation_id = inr (Some conversation) →
       ∃ db',
         Router.delete_conversation db conversation_id
         = (db', Router.Response 204 tt)
         ∧ Router.get_conversation db' conversation_id
           = Router.HTTPException 404 "Conversation not found")
  ∧ (Db.in_range conversation_id = false →
     Router.delete_conversation db conversation_id
     = (db, Router.Uncaught Db.too_large)
     ∧ Router.get_conversation db conversation_id
       = Router.Uncaught Db.too_large
     ∧ Router.status (Router.delete_conversation db conversation_id).2 = 500
     ∧ Router.status (Router.get_conversation db conversation_id) = 500).
Proof.
  unfold Router.delete_conversation. split; [|split].
  - intros H. unfold get_conversation in H. unfold delete_conversation.
    by rewrite H.
  - intros conversation H. rewrite (delete_found _ _ _ H).
    apply first_by_returns in H as [Hrange _].
    eexists. split; [reflexivity|].
    unfold Router.get_conversation, get_conversation.
    rewrite (first_by_in_range _ _ _ Hrange).
    cbn [Db.conversations]. rewrite get_after_filter.
    by rewrite decide_True.
  - intros H. unfold Router.get_conversation, get_conversation,
      delete_conversation.
    by rewrite (first_by_out_of_range _ _ _ H).
Qed.

(** X30. In a store with a conversation key left, a conversation that
    [POST /conversations] has answered with 201 is found by
    [GET /conversations/{id}] under the key of the answer, with the same
    body. *)
Theorem create_then_get
    (users : list User.t) (db : Db.t) (now : Z) (data : ConversationCreate)
    (users' : list User.t) (db' : Db.t)
    (body : Router.ConversationDetailResponse) :
  room_for_conversation db →
  Router.create_conversation http_exception_str self users db now data
  = (users', db', Router.Response 201 body) →
  Router.get_conversation db' (Router.id body) = Router.Response 200 body.
Proof.
  intros Hroom.
  unfold Router.create_conversation, Router.create_conversation_try.
  destruct (get_or_create_user users "default") as [users1 user].
  destruct (String.eqb (mode data) "rag"
            && match document_ids data with
               | Some (_ :: _) => false
               | _ => true
               end); [done|].
  destruct (decide (keys_in_range data)) as [Hkeys|Hkeys].
  - destruct (create_conversation_returns self db now (User.id user) data Hkeys)
      as (db1 & new & a & -> & Hconvs & _).
    intros [= <- <- <-].
    unfold Router.get_conversation, get_conversation.
    change (Router.id (Router.detail_response db1
                         (new_conversation db (User.id user) data)))
      with (Conversation.id (new_conversation db (User.id user) data)).
    assert (Db.in_range
              (Conversation.id (new_conversation db (User.id user) data))
            = true) as Hrange by exact Hroom.
    rewrite (first_by_in_range _ _ _ Hrange), Hconvs.
    by rewrite new_conversation_found.
  - by rewrite (create_conversation_raises _ _ _ _ _ Hkeys).
Qed.
End RouterTheorems.




Lemma update_endpoint_witness :
  Router.update_conversation Fixtures.http_str
    (ConversationService.init Fixtures.friendly_provider)
    Fixtures.chat_db 5 9 "Hello"
  = (Fixtures.chat_db, Router.HTTPException 404 "Conversation not found")
  ∧ Router.update_conversation Fixtures.http_str
      (ConversationService.init Fixtures.friendly_provider)
      Fixtures.chat_db 5 Sample.beyond "Hello"
    = (Fixtures.chat_db,
       Router.HTTPException 500
         ("Internal server error: "
          +:+ "Python int too large to convert to SQLite INTEGER")).
Proof.
  split.
  - apply (proj1 (update_endpoint Fixtures.http_str
                    (ConversationService.init Fixtures.friendly_provider)
                    Fixtures.chat_db 5 9 "Hello")).
    reflexivity.
  - apply (proj1 (proj2 (update_endpoint Fixtures.http_str
                           (ConversationService.init
                              Fixtures.friendly_provider)
                           Fixtures.chat_db 5 Sample.beyond "Hello"))).
    reflexivity.
Defined.

Lemma delete_endpoint_witness :
  (∃ db',
     Router.delete_conversation Fixtures.chat_db 1
     = (db', Router.Response 204 tt)
     ∧ Router.get_conversation db' 1
       = Router.HTTPException 404 "Conversation not found")
  ∧ Router.status (Router.delete_conversation Fixtures.chat_db Sample.beyond).2
    = 500.
Proof.
  split.
  - apply (proj1 (proj2 (delete_endpoint Fixtures.chat_db 1))
             {| Conversation.id := 1; Conversation.user_id := 1;
                Conversation.title := Some "Hello";
                Conversation.mode := "open" |}).
    reflexivity.
  - apply (proj2 (proj2 (delete_endpoint Fixtures.chat_db Sample.beyond))).
    reflexivity.
Defined.

Lemma create_then_get_witness :
  ∃ users' db' body,
    Router.create_conversation Fixtures.http_str
      (ConversationService.init Fixtures.friendly_provider) []
      Fixtures.chat_db 5 Sample.greeting
    = (users', db', Router.Response 201 body)
    ∧ Router.get_conversation db' (Router.id body) = Router.Response 200 body.
Proof.
  eexists _, _, _. split; [reflexivity|].
  eapply (create_then_get Fixtures.http_str
           (ConversationService.init Fixtures.friendly_provider) []
           Fixtures.chat_db 5 Sample.greeting).
  - reflexivity.
  - reflexivity.
Defined.
